(** * IMSCC quiz parser: the extraction pipeline and its specification

    The repository ships three variants of the same upload endpoint:
    - [server.js]     (module [Server]): structure-driven classification;
    - [api/index.js]  (module [Index]) : profile-tag-driven classification;
    - [api/upload.js] (module [Upload]): the reduced serverless handler.

    The XML documents are parsed by xml2js with [explicitArray: false] and
    [mergeAttrs: true]; the parsed tree is what the code navigates, so the
    embedding starts from that tree.  Exceptions raised by the JavaScript
    code (a property read on [undefined], a call of a missing method) are
    kept as an explicit error result. *)

From Stdlib Require Import String Ascii List Bool Arith Lia.
Import ListNotations.
Open Scope string_scope.

(** ** JavaScript values and the operators used by the source *)

Module JS.

(** The values xml2js produces (text, mapping, repeated children) together
    with [undefined] and [null].  A mapping is kept as an association list
    in document order; a key is looked up at its first occurrence. *)
#[warning="-register-all"] Inductive JSValue : Type :=
| JUndefined
| JNull
| JStr (s : string)
| JObj (props : list (string * JSValue))
| JArr (elems : list JSValue).

Inductive Exn : Type :=
| TypeError            (* property of undefined/null, call of a non-function *)
| IOError.             (* rejected read, unzip or parse *)

Inductive result (A : Type) : Type :=
| Ok (a : A)
| Throw (e : Exn).
Arguments Ok {A} a.
Arguments Throw {A} e.

Definition bind {A B} (c : result A) (k : A -> result B) : result B :=
  match c with
  | Ok a => k a
  | Throw e => Throw e
  end.

Declare Scope js_scope.
Delimit Scope js_scope with js.
Notation "x <- c ;; k" := (bind c (fun x => k))
  (at level 61, c at next level, right associativity) : js_scope.
Open Scope js_scope.

Fixpoint mapM {A B} (f : A -> result B) (l : list A) : result (list B) :=
  match l with
  | [] => Ok []
  | x :: r => y <- f x ;; ys <- mapM f r ;; Ok (y :: ys)
  end.

Fixpoint assoc (k : string) (ps : list (string * JSValue)) : JSValue :=
  match ps with
  | [] => JUndefined
  | (k', v) :: r => if String.eqb k k' then v else assoc k r
  end.

(** [v == null]: the test behind [?.] and [??]. *)
Definition isNullish (v : JSValue) : bool :=
  match v with
  | JUndefined | JNull => true
  | _ => false
  end.

(** ToBoolean. *)
Definition truthy (v : JSValue) : bool :=
  match v with
  | JUndefined | JNull => false
  | JStr s => negb (String.eqb s "")
  | JObj _ | JArr _ => true
  end.

(** Reading a named property of a value that is not nullish.  None of the
    names the source reads (element and attribute names, [#]) lives on
    [String.prototype], [Array.prototype] or [Object.prototype], so only a
    mapping can answer. *)
Definition prop (v : JSValue) (k : string) : JSValue :=
  match v with
  | JObj ps => assoc k ps
  | _ => JUndefined
  end.

(** [v.k] *)
Definition get (v : JSValue) (k : string) : result JSValue :=
  if isNullish v then Throw TypeError else Ok (prop v k).

(** [v?.k] *)
Definition oget (v : JSValue) (k : string) : JSValue :=
  if isNullish v then JUndefined else prop v k.

(** [v?.k1?.k2?. ...] *)
Definition opath (v : JSValue) (ks : list string) : JSValue :=
  fold_left oget ks v.

(** [v ?? d] *)
Definition orElse (v d : JSValue) : JSValue :=
  if isNullish v then d else v.

(** [v[0]] on a value that is not nullish: first element of an array, first
    code unit of a string, the property named [0] of a mapping. *)
Definition at0 (v : JSValue) : JSValue :=
  match v with
  | JArr (x :: _) => x
  | JStr (String c _) => JStr (String c "")
  | JObj ps => assoc "0" ps
  | _ => JUndefined
  end.

(** [v?.[0]] *)
Definition oat0 (v : JSValue) : JSValue :=
  if isNullish v then JUndefined else at0 v.

Definition isArray (v : JSValue) : bool :=
  match v with
  | JArr _ => true
  | _ => false
  end.

Definition elemsOf (v : JSValue) : list JSValue :=
  match v with
  | JArr l => l
  | _ => []
  end.

(** [v === "s"] *)
Definition seq_str (v : JSValue) (s : string) : bool :=
  match v with
  | JStr t => String.eqb t s
  | _ => false
  end.

(** [Array.prototype.find] with a callback that may throw; the callback's
    result is taken through ToBoolean by its caller. *)
Fixpoint find (p : JSValue -> result bool) (l : list JSValue) : result JSValue :=
  match l with
  | [] => Ok JUndefined
  | x :: r => b <- p x ;; if b then Ok x else find p r
  end.

Fixpoint filter (p : JSValue -> result bool) (l : list JSValue)
  : result (list JSValue) :=
  match l with
  | [] => Ok []
  | x :: r => b <- p x ;; ys <- filter p r ;; Ok (if b then x :: ys else ys)
  end.

(** [v.find(p)]: only an array has the method. *)
Definition callFind (v : JSValue) (p : JSValue -> result bool) : result JSValue :=
  match v with
  | JArr l => find p l
  | _ => Throw TypeError
  end.

(** [v?.find(p)]: the call is skipped for a nullish receiver only. *)
Definition ocallFind (v : JSValue) (p : JSValue -> result bool) : result JSValue :=
  if isNullish v then Ok JUndefined else callFind v p.

(** [v.filter(p)] *)
Definition callFilter (v : JSValue) (p : JSValue -> result bool)
  : result (list JSValue) :=
  match v with
  | JArr l => filter p l
  | _ => Throw TypeError
  end.

(** [[v].filter(Boolean)] *)
Definition singletonIfTruthy (v : JSValue) : list JSValue :=
  if truthy v then [v] else [].

(** *** Strings

    A string is a sequence of code units; the embedding covers code units
    below 256, among which [String.prototype.trim] removes TAB, LF, VT, FF,
    CR, SPACE and NBSP. *)
Definition is_ws (c : ascii) : bool :=
  existsb (Nat.eqb (nat_of_ascii c)) [9; 10; 11; 12; 13; 32; 160].

Fixpoint trimStart (s : string) : string :=
  match s with
  | EmptyString => EmptyString
  | String c r => if is_ws c then trimStart r else s
  end.

Fixpoint trimEnd (s : string) : string :=
  match s with
  | EmptyString => EmptyString
  | String c r =>
      match trimEnd r with
      | EmptyString => if is_ws c then EmptyString else String c EmptyString
      | r' => String c r'
      end
  end.

Definition trim (s : string) : string := trimEnd (trimStart s).

(** [v.trim()] *)
Definition callTrim (v : JSValue) : result string :=
  match v with
  | JStr s => Ok (trim s)
  | _ => Throw TypeError
  end.

Definition lt_char : ascii := "<"%char.
Definition gt_char : ascii := ">"%char.

(** [s.replace(/<[^>]*>?/gm, "")].  A match starts at each [<] outside a
    match, runs over every following code unit other than [>] (line breaks
    included, the class is negated) and takes one [>] if one follows;
    without a [>] it runs to the end of the string.  [replaceTags] scans
    outside a match, [inTag] inside one. *)
Fixpoint replaceTags (s : string) : string :=
  match s with
  | EmptyString => EmptyString
  | String c r =>
      if Ascii.eqb c lt_char then inTag r else String c (replaceTags r)
  end
with inTag (s : string) : string :=
  match s with
  | EmptyString => EmptyString
  | String c r =>
      if Ascii.eqb c gt_char then replaceTags r else inTag r
  end.

(** [stripHtmlTags] (the same text in the three files). *)
Definition stripHtmlTags (htmlString : JSValue) : result string :=
  if negb (truthy htmlString) then Ok ""
  else match htmlString with
       | JStr s => Ok (trim (replaceTags s))
       | _ => Throw TypeError          (* no [replace] method *)
       end.

(** Occurrence of one code unit. *)
Fixpoint occurs (a : ascii) (s : string) : bool :=
  match s with
  | EmptyString => false
  | String c r => Ascii.eqb c a || occurs a r
  end.

(** Spec wording, "markup delimited by <...>": an opening [<] with a
    closing [>] somewhere after it. *)
Fixpoint containsMarkup (s : string) : bool :=
  match s with
  | EmptyString => false
  | String c r =>
      (Ascii.eqb c lt_char && occurs gt_char r) || containsMarkup r
  end.

End JS.
Import JS.

(** ** The quiz data model *)

(** [{ identifier, text }] *)
Record Choice : Type := mkChoice {
  identifier : JSValue;
  text : JSValue
}.

(** The [question] object built for one item.  [correctAnswer] is a string
    or an [{ id, text }] mapping depending on the branch, so it stays a
    JavaScript value. *)
Record Question : Type := mkQuestion {
  itemIdentifier : JSValue;
  questionText : JSValue;
  responseType : string;
  options : list Choice;
  correctAnswer : JSValue;
  score : JSValue
}.

(** [{ title, items }] *)
Record Quiz : Type := mkQuiz {
  title : JSValue;
  items : list Question
}.

Definition set_responseType (q : Question) (t : string) : Question :=
  mkQuestion (itemIdentifier q) (questionText q) t (options q)
             (correctAnswer q) (score q).

Definition set_options (q : Question) (o : list Choice) : Question :=
  mkQuestion (itemIdentifier q) (questionText q) (responseType q) o
             (correctAnswer q) (score q).

Definition set_correctAnswer (q : Question) (a : JSValue) : Question :=
  mkQuestion (itemIdentifier q) (questionText q) (responseType q) (options q)
             a (score q).

Definition set_score (q : Question) (s : JSValue) : Question :=
  mkQuestion (itemIdentifier q) (questionText q) (responseType q) (options q)
             (correctAnswer q) s.

(** [{ id: i, text: t }] *)
Definition answer (i t : JSValue) : JSValue :=
  JObj [("id", i); ("text", t)].

(** The response types of the specification's enumeration, as the strings
    the code emits for them. *)
Definition MultipleChoice : string := "Multiple Choice".
Definition FillInBlank : string := "Fill-in-the-Blank".
Definition Essay : string := "Essay".
Definition Unknown : string := "Unknown".

Definition responseTypes : list string :=
  [MultipleChoice; FillInBlank; Essay; Unknown].

(** *** Fragments that read the same in the three files *)

(** [stripHtmlTags(node.material?.mattext?.["#"]) ?? "N/A"] for a node that
    was already dereferenced; the sanitizer's result is a string, hence
    never nullish. *)
Definition materialText (mattextHash : JSValue) : result JSValue :=
  t <- stripHtmlTags mattextHash ;;
  Ok (orElse (JStr t) (JStr "N/A")).

(** The callback of [choices.forEach]: one pushed option. *)
Definition pushChoice (choice : JSValue) : result Choice :=
  ident <- get choice "ident" ;;
  material <- get choice "material" ;;
  txt <- materialText (opath material ["mattext"; "#"]) ;;
  Ok (mkChoice (orElse ident (JStr "N/A")) txt).

(** [question.options.find((option) => option.identifier === correctIdent)].
    Strict equality holds between equal strings; a [correctIdent] that is
    not a string is a node of its own and equals no identifier. *)
Fixpoint findOption (correctIdent : JSValue) (opts : list Choice) : option Choice :=
  match opts with
  | [] => None
  | o :: r =>
      match correctIdent with
      | JStr s => if seq_str (identifier o) s then Some o else findOption correctIdent r
      | _ => findOption correctIdent r
      end
  end.

(** [correctChoice?.text ?? "N/A"] *)
Definition choiceText (correctChoice : option Choice) : JSValue :=
  match correctChoice with
  | Some o => orElse (text o) (JStr "N/A")
  | None => JStr "N/A"
  end.

(** The initial [question] literal. *)
Definition newQuestion (item : JSValue) (initialAnswer : JSValue) : result Question :=
  ident <- get item "ident" ;;
  presentation <- get item "presentation" ;;
  qtext <- materialText (opath presentation ["material"; "mattext"; "#"]) ;;
  Ok (mkQuestion (orElse ident (JStr "N/A")) qtext "N/A" [] initialAnswer (JStr "N/A")).

(** Score resolution, from [let score = "N/A"] to [question.score = score],
    given the already normalized [qtimetadatafields]. *)
Definition resolveScore (item : JSValue) (qtimetadatafields : list JSValue)
  : result JSValue :=
  weightField <-
    find (fun field => Ok (seq_str (oget field "fieldlabel") "cc_weighting"))
         qtimetadatafields ;;
  if truthy weightField then
    fieldentry <- get weightField "fieldentry" ;;
    Ok (orElse fieldentry (JStr "N/A"))
  else
    resprocessing <- get item "resprocessing" ;;
    if truthy resprocessing && truthy (prop resprocessing "respcondition") then
      let respcondition :=
        if isArray (prop resprocessing "respcondition")
        then at0 (prop resprocessing "respcondition")
        else prop resprocessing "respcondition" in
      if truthy (oget respcondition "setvar") then
        val <- get (prop respcondition "setvar") "val" ;;
        Ok (orElse val (JStr "N/A"))
      else Ok (JStr "N/A")
    else Ok (JStr "N/A").

(** The multiple-choice branch of [server.js] and [api/index.js] after the
    [choices] array is computed: options, then the correct answer. *)
Definition multipleChoice (item : JSValue) (choices : list JSValue) (q : Question)
  : result Question :=
  opts <- mapM pushChoice choices ;;
  let q := set_options q (options q ++ opts) in
  resprocessing <- get item "resprocessing" ;;
  correctResponse <-
    ocallFind (oget resprocessing "respcondition")
              (fun cond => setvar <- get cond "setvar" ;; Ok (truthy setvar)) ;;
  if truthy correctResponse then
    correctIdent <-
      callTrim (orElse (opath (prop correctResponse "conditionvar")
                              ["varequal"; "#"]) (JStr "")) ;;
    let correctChoice := findOption (JStr correctIdent) (options q) in
    Ok (set_correctAnswer q (answer (JStr correctIdent) (choiceText correctChoice)))
  else
    Ok (set_correctAnswer q (answer (JStr "N/A") (JStr "N/A"))).

(** [item.resprocessing?.respcondition?.[0]?.conditionvar?.varequal?.["#"] ?? "N/A"] *)
Definition fillInBlankAnswer (item : JSValue) : result JSValue :=
  resprocessing <- get item "resprocessing" ;;
  Ok (orElse (opath (oat0 (oget resprocessing "respcondition"))
                    ["conditionvar"; "varequal"; "#"])
             (JStr "N/A")).

(** The essay test of the last [else] branch. *)
Definition isEssay (profileField : JSValue) : result bool :=
  if isArray profileField then
    found <- callFind profileField
               (fun f => label <- get f "fieldlabel" ;;
                         if seq_str label "cc_profile"
                         then entry <- get f "fieldentry" ;;
                              Ok (seq_str entry "cc.essay.v0p1")
                         else Ok false) ;;
    Ok (truthy found)
  else
    Ok (seq_str (oget profileField "fieldlabel") "cc_profile"
        && seq_str (oget profileField "fieldentry") "cc.essay.v0p1").

(** The last [else] branch: essay or unknown. *)
Definition essayOrUnknown (profileField : JSValue) (q : Question) : result Question :=
  essay <- isEssay profileField ;;
  if essay then
    Ok (set_score
          (set_correctAnswer (set_responseType q Essay)
                             (JStr "Manual scoring required."))
          (JStr "Manual grading"))
  else Ok (set_responseType q Unknown).

(** ** External collaborators of the upload endpoint

    The request, the archive and the files read from the scratch directory
    are inputs of the handler; the disk is the state it changes. *)

(** How the promise of [unzipFile] ends.  It resolves on the archive's
    [end] event, after which [imsmanifest.xml] is read and parsed; it
    rejects when the archive cannot be opened or a directory, an entry or a
    write fails; and it never settles when a read stream fails, for which
    no listener is attached. *)
Inductive Unzip : Type :=
| Resolved (manifestDoc : option JSValue)
| Rejected
| Pending.

Record Env : Type := mkEnv {
  method : string;                      (* req.method *)
  upload : option string;               (* path multer stages the upload at *)
  mkdtemp : option string;              (* the fresh imscc- directory, or a failure *)
  unzipped : list string;               (* archive entries written by unzipFile *)
  unzip : Unzip;                        (* how unzipFile ends *)
  quizDoc : string -> option JSValue;   (* an assessment file read and parsed *)
  unlinkFails : bool;                   (* fsPromises.unlink rejects *)
  rmFails : bool;                       (* fsPromises.rm rejects *)
  rmReached : string -> bool            (* what a rejected rm removed before *)
}.

(** [imsmanifest.xml] read and parsed, once the archive is unpacked. *)
Definition manifestDoc (env : Env) : option JSValue :=
  match unzip env with
  | Resolved doc => doc
  | _ => None
  end.

(** The paths that exist under [os.tmpdir()]. *)
Definition Disk : Type := list string.

Inductive Response : Type :=
| R200 (subject : JSValue) (quizzes : list Quiz)
| R400
| R405
| R500
| NoResponse.                           (* the handler never answers *)

(** [path.join(dir, name)] for a relative [name] without dot segments. *)
Definition join (dir name : string) : string := dir ++ "/" ++ name.

(** multer's [upload.single]: the uploaded file is written to its path. *)
Definition stage (env : Env) (disk : Disk) : Disk :=
  match upload env with
  | Some p => p :: disk
  | None => disk
  end.

(** [fsPromises.unlink(p)]: the path is removed, or the promise rejects
    and the path stays. *)
Definition unlink (env : Env) (p : string) (disk : Disk) : result unit * Disk :=
  if unlinkFails env then (Throw IOError, disk)
  else (Ok tt, List.filter (fun x => negb (String.eqb x p)) disk).

(** [fsPromises.rm(dir, { recursive: true, force: true })]: the directory
    and everything below it are removed, or the promise rejects after
    removing some of the paths below it. *)
Definition rm (env : Env) (dir : string) (disk : Disk) : result unit * Disk :=
  if rmFails env then
    (Throw IOError,
     List.filter (fun x => negb (prefix (dir ++ "/") x && rmReached env x)) disk)
  else
    (Ok tt,
     List.filter (fun x => negb (String.eqb x dir) && negb (prefix (dir ++ "/") x))
                 disk).

(** [promise.catch((e) => console.error(...))]: a rejection is logged and
    the handler goes on with the disk as the operation left it. *)
Definition logged (r : result unit * Disk) : Disk := snd r.

(** [unzipFile(source, dest)]: the entries reached are on disk however the
    promise ends; [None] stands for the promise that never settles. *)
Definition unzipFile (env : Env) (dest : string) (disk : Disk)
  : option (result unit) * Disk :=
  (match unzip env with
   | Resolved _ => Some (Ok tt)
   | Rejected => Some (Throw IOError)
   | Pending => None
   end,
   (map (join dest) (unzipped env) ++ disk)%list).

(** The subject: a fixed optional chain below [manifest.manifest]. *)
Definition subjectName (manifest : JSValue) : result JSValue :=
  root <- get manifest "manifest" ;;
  Ok (orElse (opath root ["metadata"; "lomm:lom"; "lomm:general"; "lomm:title";
                           "lomm:string"; "#"])
             (JStr "N/A")).

Definition assessmentType : string := "imsqti_xmlv1p2/imscc_xmlv1p3/assessment".

(** [manifest.manifest.resources.resource] *)
Definition resourceNode (manifest : JSValue) : result JSValue :=
  root <- get manifest "manifest" ;;
  resources <- get root "resources" ;;
  get resources "resource".

(** [path.join(tempDirPath, relativePath)] followed by the read and the
    parse of [processXmlFile]: a path that is not a string is a TypeError,
    an unreadable or unparsable file a rejection. *)
Definition readQuiz (env : Env) (relativePath : JSValue) : result JSValue :=
  match relativePath with
  | JStr p => match quizDoc env p with
              | Some doc => Ok doc
              | None => Throw IOError
              end
  | _ => Throw TypeError
  end.

(** The body of the [parseString] callback of [processXmlFile], over the
    item callback and the two title literals of a variant. *)
Definition parsedQuiz (processItem : JSValue -> result Question)
    (noTitle singleTitle : string) (doc : JSValue) : result (option Quiz) :=
  mainContainer <- get doc "questestinterop" ;;
  if negb (truthy mainContainer) then Ok None
  else if truthy (prop mainContainer "assessment") then
    let assessment := prop mainContainer "assessment" in
    let quizTitle := orElse (prop assessment "title") (JStr noTitle) in
    let section := prop assessment "section" in
    let items := if truthy section
                 then if isArray (prop section "item")
                      then elemsOf (prop section "item")
                      else [prop section "item"]
                 else [] in
    processedItems <- mapM processItem items ;;
    Ok (Some (mkQuiz quizTitle processedItems))
  else if truthy (prop mainContainer "item") then
    let items := if isArray (prop mainContainer "item")
                 then elemsOf (prop mainContainer "item")
                 else [prop mainContainer "item"] in
    processedItems <- mapM processItem items ;;
    Ok (Some (mkQuiz (JStr singleTitle) processedItems))
  else Ok None.

(** [for (const resource of quizFiles) { ... allQuizData.push(quizData) }]
    over the per-resource step of a variant, which yields the quiz to push,
    if any. *)
Fixpoint collect (step : JSValue -> result (option Quiz)) (quizFiles : list JSValue)
  : result (list Quiz) :=
  match quizFiles with
  | [] => Ok []
  | resource :: rest =>
      quizData <- step resource ;;
      more <- collect step rest ;;
      Ok (match quizData with Some q => q :: more | None => more end)
  end.

(** The [try] block shared by the three handlers from [mkdtemp] on, over
    the variant's extraction; it returns the outcome ([None] when the block
    never completes), the value of [tempDirPath] and the disk. *)
Definition tryBlock (extract : Env -> JSValue -> result Response)
    (env : Env) (imsccFilePath : string) (disk : Disk)
  : option (result Response) * option string * Disk :=
  match mkdtemp env with
  | None => (Some (Throw IOError), None, disk)
  | Some tempDirPath =>
      let disk := tempDirPath :: disk in
      match unzipFile env tempDirPath disk with
      | (None, disk) => (None, Some tempDirPath, disk)
      | (Some (Throw e), disk) => (Some (Throw e), Some tempDirPath, disk)
      | (Some (Ok _), disk) =>
          match manifestDoc env with
          | None => (Some (Throw IOError), Some tempDirPath, disk)
          | Some manifest => (Some (extract env manifest), Some tempDirPath, disk)
          end
      end
  end.

(** [catch] and [finally] of [server.js] and [api/index.js]; neither is
    reached when the [try] block never completes. *)
Definition withCleanup (extract : Env -> JSValue -> result Response)
    (env : Env) (disk : Disk) : Response * Disk :=
  match upload env with
  | None => (R400, disk)
  | Some imsccFilePath =>
      match tryBlock extract env imsccFilePath disk with
      | (None, _, disk) => (NoResponse, disk)
      | (Some outcome, tempDirPath, disk) =>
          let response := match outcome with Ok r => r | Throw _ => R500 end in
          let disk := logged (unlink env imsccFilePath disk) in
          let disk := match tempDirPath with
                      | Some dir => logged (rm env dir disk)
                      | None => disk
                      end in
          (response, disk)
      end
  end.

(** ** [server.js] *)

Module Server.

(** The callback of [items.map] in [processXmlFile]. *)
Definition processItem (item : JSValue) : result Question :=
  question <- newQuestion item (JStr "N/A") ;;
  itemmetadata <- get item "itemmetadata" ;;
  let field := opath itemmetadata ["qtimetadata"; "qtimetadatafield"] in
  let qtimetadatafields := if isArray field then elemsOf field else [field] in
  score <- resolveScore item qtimetadatafields ;;
  let question := set_score question score in
  presentation <- get item "presentation" ;;
  if truthy (opath presentation ["response_lid"; "render_choice"]) then
    let question := set_responseType question MultipleChoice in
    let response_label :=
      prop (prop (prop presentation "response_lid") "render_choice")
           "response_label" in
    let choices := if isArray response_label
                   then elemsOf response_label else [response_label] in
    multipleChoice item choices question
  else if truthy (oget presentation "response_str") then
    let question := set_responseType question FillInBlank in
    correct <- fillInBlankAnswer item ;;
    Ok (set_correctAnswer question correct)
  else
    essayOrUnknown field question.

Definition processXmlFile (env : Env) (relativePath : JSValue)
  : result (option Quiz) :=
  doc <- readQuiz env relativePath ;;
  parsedQuiz processItem "N/A (Title not found)"
             "Single Item Quiz (No Assessment Tag)" doc.

(** [resources.filter((r) => r.type === "...")] on the node as parsed. *)
Definition quizFiles (manifest : JSValue) : result (list JSValue) :=
  resources <- resourceNode manifest ;;
  callFilter resources
             (fun r => type <- get r "type" ;; Ok (seq_str type assessmentType)).

(** The loop body: [resource.file.href] is read without a test. *)
Definition quizOf (env : Env) (resource : JSValue) : result (option Quiz) :=
  file <- get resource "file" ;;
  relativePath <- get file "href" ;;
  processXmlFile env relativePath.

Definition extract (env : Env) (manifest : JSValue) : result Response :=
  subject <- subjectName manifest ;;
  files <- quizFiles manifest ;;
  allQuizData <- collect (quizOf env) files ;;
  Ok (R200 subject allQuizData).

(** [app.post("/upload", upload.single("imsccFile"), ...)] *)
Definition handler (env : Env) (disk : Disk) : Response * Disk :=
  withCleanup extract env (stage env disk).

End Server.

(** ** [api/index.js]

    This variant parses with [strict: false]; the tree its parser hands
    over is the input of the definitions below, which navigate it by the
    same lower-case names as [server.js]. *)

Module Index.

Definition processItem (item : JSValue) : result Question :=
  question <- newQuestion item (answer (JStr "N/A") (JStr "N/A")) ;;
  itemmetadata <- get item "itemmetadata" ;;
  let field := opath itemmetadata ["qtimetadata"; "qtimetadatafield"] in
  let qtimetadatafields :=
    if isArray field then elemsOf field else singletonIfTruthy field in
  score <- resolveScore item qtimetadatafields ;;
  let question := set_score question score in
  profileField <-
    find (fun f => label <- get f "fieldlabel" ;; Ok (seq_str label "cc_profile"))
         qtimetadatafields ;;
  let questionProfileType :=
    if truthy profileField then prop profileField "fieldentry"
    else JStr "unknown" in
  if seq_str questionProfileType "cc.multiple_choice.v0p1" then
    let question := set_responseType question MultipleChoice in
    presentation <- get item "presentation" ;;
    choices <-
      (if isArray (opath presentation
                         ["response_lid"; "render_choice"; "response_label"])
       then Ok (elemsOf (opath presentation
                               ["response_lid"; "render_choice"; "response_label"]))
       else response_lid <- get presentation "response_lid" ;;
            render_choice <- get response_lid "render_choice" ;;
            response_label <- get render_choice "response_label" ;;
            Ok [response_label]) ;;
    multipleChoice item choices question
  else if seq_str questionProfileType "cc.fib.v0p1" then
    let question := set_responseType question FillInBlank in
    correct <- fillInBlankAnswer item ;;
    Ok (set_correctAnswer question correct)
  else
    essayOrUnknown profileField question.

Definition processXmlFile (env : Env) (relativePath : JSValue)
  : result (option Quiz) :=
  doc <- readQuiz env relativePath ;;
  parsedQuiz processItem "N/A (Title not found)"
             "Single Item Quiz (No Assessment Tag)" doc.

(** [Array.isArray(x) ? x : [x].filter(Boolean)] *)
Definition oneOrMany (x : JSValue) : list JSValue :=
  if isArray x then elemsOf x else singletonIfTruthy x.

Definition quizFiles (manifest : JSValue) : result (list JSValue) :=
  node <- resourceNode manifest ;;
  let resources := oneOrMany node in
  filter (fun r => type <- get r "type" ;; Ok (seq_str type assessmentType))
         resources.

(** [files[0]?.href] *)
Definition relativePath (resource : JSValue) : result JSValue :=
  file <- get resource "file" ;;
  let files := oneOrMany file in
  Ok (oget (nth 0 files JUndefined) "href").

Definition quizOf (env : Env) (resource : JSValue) : result (option Quiz) :=
  path <- relativePath resource ;;
  if truthy path then processXmlFile env path else Ok None.

Definition extract (env : Env) (manifest : JSValue) : result Response :=
  subject <- subjectName manifest ;;
  files <- quizFiles manifest ;;
  allQuizData <- collect (quizOf env) files ;;
  Ok (R200 subject allQuizData).

(** [app.post("/api/upload", upload.single("imsccFile"), ...)] *)
Definition handler (env : Env) (disk : Disk) : Response * Disk :=
  withCleanup extract env (stage env disk).

End Index.

(** ** [api/upload.js] *)

Module Upload.

Definition processItem (item : JSValue) : result Question :=
  question <- newQuestion item (JStr "N/A") ;;
  presentation <- get item "presentation" ;;
  if truthy (opath presentation ["response_lid"; "render_choice"]) then
    let question := set_responseType question MultipleChoice in
    let response_label :=
      prop (prop (prop presentation "response_lid") "render_choice")
           "response_label" in
    let choices := if isArray response_label
                   then elemsOf response_label else [response_label] in
    opts <- mapM pushChoice choices ;;
    let question := set_options question (options question ++ opts) in
    resprocessing <- get item "resprocessing" ;;
    correctResponse <-
      ocallFind (oget resprocessing "respcondition")
                (fun cond =>
                   setvar <- get cond "setvar" ;;
                   Ok (truthy setvar
                       && seq_str (oget (prop setvar "$") "varname") "SCORE")) ;;
    if truthy correctResponse then
      let correctIdent :=
        orElse (opath (prop correctResponse "conditionvar") ["varequal"; "#"])
               (JStr "") in
      let correctChoice := findOption correctIdent (options question) in
      let question :=
        set_correctAnswer question (answer correctIdent (choiceText correctChoice)) in
      Ok (set_score question
            (orElse (oget (prop correctResponse "setvar") "#") (JStr "N/A")))
    else Ok question
  else Ok question.

Definition processXmlFile (env : Env) (relativePath : JSValue)
  : result (option Quiz) :=
  doc <- readQuiz env relativePath ;;
  parsedQuiz processItem "N/A" "Single Item Quiz" doc.

Definition quizFiles (manifest : JSValue) : result (list JSValue) :=
  resources <- resourceNode manifest ;;
  if isArray resources then
    filter (fun r => type <- get r "type" ;; Ok (seq_str type assessmentType))
           (elemsOf resources)
  else
    filter (fun r => Ok (seq_str (oget r "type") assessmentType)) [resources].

Definition quizOf (env : Env) (resource : JSValue) : result (option Quiz) :=
  file <- get resource "file" ;;
  relativePath <- get file "href" ;;
  processXmlFile env relativePath.

Definition extract (env : Env) (manifest : JSValue) : result Response :=
  subject <- subjectName manifest ;;
  files <- quizFiles manifest ;;
  allQuizData <- collect (quizOf env) files ;;
  Ok (R200 subject allQuizData).

(** [handler]: multer runs inside the [try]; there is no [finally]. *)
Definition handler (env : Env) (disk : Disk) : Response * Disk :=
  if negb (String.eqb (method env) "POST") then (R405, disk)
  else
    let disk := stage env disk in
    match upload env with
    | None => (R400, disk)
    | Some imsccFilePath =>
        match tryBlock extract env imsccFilePath disk with
        | (None, _, disk) => (NoResponse, disk)
        | (Some outcome, _, disk) =>
            (match outcome with Ok r => r | Throw _ => R500 end, disk)
        end
    end.

End Upload.

(** ** The vocabulary of the specification *)

(** Singleton-or-list normalization: a list as it is, an absent value as
    the empty list, any other value as a singleton. *)
Definition normalize (v : JSValue) : list JSValue :=
  match v with
  | JArr l => l
  | JUndefined | JNull => []
  | _ => [v]
  end.

(** [Array.isArray(v) ? v : [v]]: a list as it is, anything else, absent
    values included, as a singleton. *)
Definition normalizeOrSelf (v : JSValue) : list JSValue :=
  if isArray v then elemsOf v else [v].

(** The item's metadata field list, list-normalized. *)
Definition metadataFields (item : JSValue) : list JSValue :=
  normalize (opath (prop item "itemmetadata") ["qtimetadata"; "qtimetadatafield"]).

(** The first field of a list that carries a given label. *)
Fixpoint firstLabeled (label : string) (fields : list JSValue) : option JSValue :=
  match fields with
  | [] => None
  | f :: r =>
      if seq_str (prop f "fieldlabel") label then Some f
      else firstLabeled label r
  end.

(** "The metadata declares [label = entry]": some field of the list has
    that label and that entry. *)
Definition hasEntry (label entry : string) (f : JSValue) : bool :=
  seq_str (prop f "fieldlabel") label && seq_str (prop f "fieldentry") entry.

Definition declares (label entry : string) (item : JSValue) : bool :=
  existsb (hasEntry label entry) (metadataFields item).

(** The first response-condition under response processing. *)
Definition firstCondition (item : JSValue) : JSValue :=
  nth 0 (normalize (prop (prop item "resprocessing") "respcondition")) JUndefined.

(** The first response-condition of a list that sets a variable. *)
Fixpoint firstSetting (conds : list JSValue) : option JSValue :=
  match conds with
  | [] => None
  | c :: r => if truthy (prop c "setvar") then Some c else firstSetting r
  end.

(** Score resolution as the specification words it. *)
Definition resolvedScore (item : JSValue) : JSValue :=
  match firstLabeled "cc_weighting" (metadataFields item) with
  | Some field => orElse (prop field "fieldentry") (JStr "N/A")
  | None =>
      let setvar := prop (firstCondition item) "setvar" in
      if truthy setvar then orElse (prop setvar "val") (JStr "N/A")
      else JStr "N/A"
  end.

(** A choice-rendering structure, a free-text response structure. *)
Definition hasChoiceRendering (item : JSValue) : bool :=
  truthy (opath (prop item "presentation") ["response_lid"; "render_choice"]).

Definition hasFreeText (item : JSValue) : bool :=
  truthy (opath (prop item "presentation") ["response_str"]).

(** The essay outcome. *)
Definition essayOutcome (q : Question) : Prop :=
  responseType q = Essay
  /\ correctAnswer q = JStr "Manual scoring required."
  /\ score q = JStr "Manual grading".

(** What a full extractor owes a produced question: either the essay
    outcome, or one of the three other response types together with the
    resolved score. *)
Definition resolved (item : JSValue) (q : Question) : Prop :=
  essayOutcome q
  \/ ((responseType q = MultipleChoice \/ responseType q = FillInBlank
       \/ responseType q = Unknown)
      /\ score q = resolvedScore item).

(** The response type as [server.js] decides it: structure first, the
    essay profile last. *)
Definition serverType (item : JSValue) : string :=
  if hasChoiceRendering item then MultipleChoice
  else if hasFreeText item then FillInBlank
  else if declares "cc_profile" "cc.essay.v0p1" item then Essay
  else Unknown.

(** The response type as [api/index.js] decides it: by the entry of the
    first field labeled [cc_profile]. *)
Definition indexType (item : JSValue) : string :=
  match firstLabeled "cc_profile" (metadataFields item) with
  | Some f =>
      if seq_str (prop f "fieldentry") "cc.multiple_choice.v0p1" then MultipleChoice
      else if seq_str (prop f "fieldentry") "cc.fib.v0p1" then FillInBlank
      else if seq_str (prop f "fieldentry") "cc.essay.v0p1" then Essay
      else Unknown
  | None => Unknown
  end.

(** What the item callback of [server.js] needs in order to return.  A
    text node must be absent or a string for the sanitizer; a choice label
    must be present; the search for the condition that sets a variable
    reads every condition up to the one it finds, whose equality target
    must be absent or a string for [trim]; the response-conditions must be
    absent or a list for [find]; and the essay search reads every field up
    to the one it finds. *)
Definition textual (v : JSValue) : bool :=
  match v with
  | JObj _ | JArr _ => false
  | _ => true
  end.

Definition isText (v : JSValue) : bool :=
  match v with
  | JStr _ => true
  | _ => false
  end.

Definition choiceReadable (choice : JSValue) : bool :=
  negb (isNullish choice)
  && textual (opath (prop choice "material") ["mattext"; "#"]).

Fixpoint settingReadable (conds : list JSValue) : bool :=
  match conds with
  | [] => true
  | c :: r =>
      if isNullish c then false
      else if truthy (prop c "setvar")
           then isText (orElse (opath (prop c "conditionvar") ["varequal"; "#"])
                               (JStr ""))
           else settingReadable r
  end.

Definition conditionsReadable (respcondition : JSValue) : bool :=
  match respcondition with
  | JUndefined | JNull => true
  | JArr conds => settingReadable conds
  | _ => false
  end.

Fixpoint profileReadable (fields : list JSValue) : bool :=
  match fields with
  | [] => true
  | f :: r =>
      if isNullish f then false
      else if hasEntry "cc_profile" "cc.essay.v0p1" f then true
           else profileReadable r
  end.

Definition essayReadable (field : JSValue) : bool :=
  match field with
  | JArr fields => profileReadable fields
  | _ => true
  end.

Definition serverAccepts (item : JSValue) : bool :=
  negb (isNullish item)
  && textual (opath (prop item "presentation") ["material"; "mattext"; "#"])
  && (if hasChoiceRendering item then
        forallb choiceReadable
                (normalizeOrSelf
                   (prop (prop (prop (prop item "presentation") "response_lid")
                               "render_choice") "response_label"))
        && conditionsReadable (prop (prop item "resprocessing") "respcondition")
      else if hasFreeText item then true
      else essayReadable
             (opath (prop item "itemmetadata") ["qtimetadata"; "qtimetadatafield"])).

(** A computation returns exactly when [b] holds, and throws a TypeError
    otherwise. *)
Definition decides {A : Type} (r : result A) (b : bool) : Prop :=
  match r with
  | Ok _ => b = true
  | Throw e => b = false /\ e = TypeError
  end.

(** The quizzes pushed for a run of per-resource results. *)
Definition pushed (results : list (option Quiz)) : list Quiz :=
  flat_map (fun r => match r with Some q => [q] | None => [] end) results.

(** A question built from an item: identifier and text are those of the
    initial question literal, the options are the choices pushed. *)
Definition built (item : JSValue) (q : Question) : Prop :=
  exists initial q0 choices,
    newQuestion item initial = Ok q0
    /\ itemIdentifier q = itemIdentifier q0
    /\ questionText q = questionText q0
    /\ mapM pushChoice choices = Ok (options q).

(** The option pushed for a choice label: its identifier, ["N/A"] when
    absent, and its sanitized material text. *)
Definition choiceOf (choice : JSValue) (o : Choice) : Prop :=
  identifier o = orElse (prop choice "ident") (JStr "N/A")
  /\ exists t,
       stripHtmlTags (opath (prop choice "material") ["mattext"; "#"]) = Ok t
       /\ text o = JStr t.

(** The choice labels of an item, where they are a list. *)
Definition labelList (item : JSValue) (labels : list JSValue) : Prop :=
  opath (prop item "presentation") ["response_lid"; "render_choice"; "response_label"]
  = JArr labels.

(** The handler reaches its [finally] block: [mkdtemp] failed, or the
    unzip promise settled. *)
Definition settles (env : Env) : bool :=
  match mkdtemp env, unzip env with
  | Some _, Pending => false
  | _, _ => true
  end.

(** A path that is the scratch directory of a request or lies below it. *)
Definition underScratch (env : Env) (x : string) : bool :=
  match mkdtemp env with
  | Some dir => String.eqb x dir || prefix (dir ++ "/") x
  | None => false
  end.

(** What becomes of the scratch resources of a request that staged its
    upload at [p]: they are off the disk when the [finally] block is
    reached and the deletion does not reject, and they stay when the block
    is not reached or the deletion rejects. *)
Definition released (env : Env) (p : string) (after : Disk) : Prop :=
  (settles env = true -> unlinkFails env = false -> ~ In p after)
  /\ (settles env = true -> rmFails env = false ->
      forall dir, mkdtemp env = Some dir ->
        ~ In dir after /\ forall name, ~ In (join dir name) after)
  /\ (unlinkFails env = true -> underScratch env p = false -> In p after)
  /\ (rmFails env = true ->
      forall dir, mkdtemp env = Some dir -> dir <> p -> In dir after)
  /\ (settles env = false ->
      In p after /\ forall dir, mkdtemp env = Some dir -> In dir after).

(** A path that a request owns: its staged upload, its scratch directory
    or a path below the latter. *)
Definition owned (env : Env) (x : string) : bool :=
  match upload env with
  | None => false
  | Some p =>
      String.eqb x p
      || match mkdtemp env with
         | Some dir => String.eqb x dir || prefix (dir ++ "/") x
         | None => false
         end
  end.

(** A sanitized text: a string, trimmed, without [<]. *)
Definition sanitized (v : JSValue) : Prop :=
  exists t, v = JStr t /\ occurs lt_char t = false /\ trim t = t.

(** ** Sample documents

    Trees as xml2js returns them for small QTI items and manifests. *)

Module Sample.

Definition field (label entry : string) : JSValue :=
  JObj [("fieldlabel", JStr label); ("fieldentry", JStr entry)].

Definition metadata (fields : JSValue) : JSValue :=
  JObj [("qtimetadata", JObj [("qtimetadatafield", fields)])].

Definition material (html : string) : JSValue :=
  JObj [("mattext", JObj [("texttype", JStr "text/html"); ("#", JStr html)])].

Definition label (ident txt : string) : JSValue :=
  JObj [("ident", JStr ident); ("material", material txt)].

(** [<respcondition><conditionvar><varequal respident="response1">target
    </varequal></conditionvar><setvar val="..." ...>100</setvar></respcondition>] *)
Definition condition (target val : string) : JSValue :=
  JObj [("continue", JStr "No");
        ("conditionvar",
         JObj [("varequal", JObj [("respident", JStr "response1");
                                  ("#", JStr target)])]);
        ("setvar", JObj [("action", JStr "Set"); ("varname", JStr "SCORE");
                         ("val", JStr val); ("#", JStr "100")])].

(** A multiple-choice item with the options A = Paris and B = Rome, over
    the way its response-conditions are represented. *)
Definition capital (respcondition : JSValue) : JSValue :=
  JObj [("ident", JStr "q1");
        ("itemmetadata", metadata (field "cc_profile" "cc.multiple_choice.v0p1"));
        ("presentation",
         JObj [("material", material "<p>Capital of France?</p>");
               ("response_lid",
                JObj [("ident", JStr "response1");
                      ("render_choice",
                       JObj [("response_label",
                              JArr [label "A" "Paris"; label "B" "Rome"])])])]);
        ("resprocessing", JObj [("respcondition", respcondition)])].

(** A fill-in-the-blank item. *)
Definition blank (respcondition : JSValue) : JSValue :=
  JObj [("ident", JStr "q2");
        ("itemmetadata", metadata (field "cc_profile" "cc.fib.v0p1"));
        ("presentation",
         JObj [("material", material "The capital of France is ...");
               ("response_str", JObj [("ident", JStr "response1");
                                      ("render_fib", JStr "")])]);
        ("resprocessing", JObj [("respcondition", respcondition)])].

(** An essay item with a weighting, over the rest of its presentation. *)
Definition essay (response : list (string * JSValue)) : JSValue :=
  JObj [("ident", JStr "q3");
        ("itemmetadata",
         metadata (JArr [field "cc_profile" "cc.essay.v0p1";
                         field "cc_weighting" "10"]));
        ("presentation",
         JObj (("material", material "Describe Paris.") :: response))].

(** The free-text structure exported with an essay. *)
Definition freeText : list (string * JSValue) :=
  [("response_str", JObj [("ident", JStr "response1"); ("render_fib", JStr "")])].

(** An item with an identifier and nothing else. *)
Definition bare : JSValue := JObj [("ident", JStr "q4")].

(** A multiple-choice item whose only choice has no material. *)
Definition silent : JSValue :=
  JObj [("ident", JStr "q5");
        ("itemmetadata", metadata (field "cc_profile" "cc.multiple_choice.v0p1"));
        ("presentation",
         JObj [("response_lid",
                JObj [("render_choice",
                       JObj [("response_label", JObj [("ident", JStr "A")])])])])].

Definition resource (type href : string) : JSValue :=
  JObj [("identifier", JStr "r1"); ("type", JStr type);
        ("file", JObj [("href", JStr href)])].

Definition manifest (resource : JSValue) : JSValue :=
  JObj [("manifest",
         JObj [("identifier", JStr "m1");
               ("resources", JObj [("resource", resource)])])].

Definition quiz (item : JSValue) : JSValue :=
  JObj [("questestinterop",
         JObj [("assessment",
                JObj [("ident", JStr "a1"); ("title", JStr "Geography");
                      ("section", JObj [("item", item)])])])].

(** One uploaded package: a manifest and one assessment file. *)
Definition package (manifestDoc : JSValue) : Env :=
  mkEnv "POST" (Some "/tmp/upload_1") (Some "/tmp/imscc-a1")
        ["imsmanifest.xml"; "quiz1.xml"] (Resolved (Some manifestDoc))
        (fun p => if String.eqb p "quiz1.xml" then Some (quiz bare) else None)
        false false (fun _ => true).

(** A multiple-choice structure without any metadata. *)
Definition unprofiled : JSValue :=
  JObj [("ident", JStr "q6");
        ("presentation",
         JObj [("material", material "Pick <b>one</b>");
               ("response_lid",
                JObj [("render_choice",
                       JObj [("response_label",
                              JArr [label "A" "<i>Paris</i>"; label "A" "Rome"])])])]);
        ("resprocessing",
         JObj [("respcondition", JArr [condition "B" "0"; condition "A" "1"])])].

(** An assessment whose section has an identifier and no item. *)
Definition hollow : JSValue :=
  JObj [("questestinterop",
         JObj [("assessment",
                JObj [("ident", JStr "a2"); ("title", JStr "Empty");
                      ("section", JObj [("ident", JStr "root_section")])])])].

(** The same request when a read stream of the archive fails, and when
    both deletions reject. *)
Definition stuck (env : Env) : Env :=
  mkEnv (method env) (upload env) (mkdtemp env) (unzipped env) Pending
        (quizDoc env) (unlinkFails env) (rmFails env) (rmReached env).

Definition undeletable (env : Env) : Env :=
  mkEnv (method env) (upload env) (mkdtemp env) (unzipped env) (unzip env)
        (quizDoc env) true true (fun _ => false).

End Sample.

(** * Properties *)

(** ** The text sanitizer *)

Section Sanitizer.

Lemma occurs_replaceTags (s : string) :
  occurs lt_char (replaceTags s) = false /\ occurs lt_char (inTag s) = false.
Proof.
  induction s as [|c r [IHr IHt]]; simpl; [split; reflexivity|].
  split.
  - destruct (Ascii.eqb c lt_char) eqn:E; simpl; [exact IHt|].
    rewrite E. exact IHr.
  - destruct (Ascii.eqb c gt_char); assumption.
Qed.

Lemma replaceTags_without_lt (s : string) :
  occurs lt_char s = false -> replaceTags s = s.
Proof.
  induction s as [|c r IH]; simpl; [reflexivity|].
  intros H. apply orb_false_iff in H as [Hc Hr].
  rewrite Hc. f_equal. exact (IH Hr).
Qed.

Lemma inTag_without_gt (s : string) :
  occurs gt_char s = false -> inTag s = "".
Proof.
  induction s as [|c r IH]; simpl; [reflexivity|].
  intros H. apply orb_false_iff in H as [Hc Hr].
  rewrite Hc. exact (IH Hr).
Qed.

Lemma inTag_closed (b c : string) :
  occurs gt_char b = false ->
  inTag (b ++ String gt_char c) = replaceTags c.
Proof.
  induction b as [|x r IH]; simpl.
  - reflexivity.
  - intros H. apply orb_false_iff in H as [Hx Hr].
    rewrite Hx. exact (IH Hr).
Qed.

Lemma replaceTags_prefix (a rest : string) :
  occurs lt_char a = false ->
  replaceTags (a ++ rest) = a ++ replaceTags rest.
Proof.
  induction a as [|x r IH]; simpl; [reflexivity|].
  intros H. apply orb_false_iff in H as [Hx Hr].
  rewrite Hx. f_equal. exact (IH Hr).
Qed.

Lemma occurs_trimStart (a : ascii) (s : string) :
  occurs a s = false -> occurs a (trimStart s) = false.
Proof.
  induction s as [|c r IH]; simpl; [reflexivity|].
  intros H. destruct (is_ws c); [|exact H].
  apply orb_false_iff in H as [_ Hr]. exact (IH Hr).
Qed.

Lemma occurs_trimEnd (a : ascii) (s : string) :
  occurs a s = false -> occurs a (trimEnd s) = false.
Proof.
  induction s as [|c r IH]; simpl; [reflexivity|].
  intros H. apply orb_false_iff in H as [Hc Hr].
  specialize (IH Hr).
  destruct (trimEnd r) as [|d t].
  - destruct (is_ws c); simpl; [reflexivity|]. rewrite Hc. reflexivity.
  - cbn [occurs]. rewrite Hc. exact IH.
Qed.

Lemma trimStart_idem (s : string) : trimStart (trimStart s) = trimStart s.
Proof.
  induction s as [|c r IH]; simpl; [reflexivity|].
  destruct (is_ws c) eqn:E; [exact IH|]. simpl. rewrite E. reflexivity.
Qed.

Lemma trimEnd_idem (s : string) : trimEnd (trimEnd s) = trimEnd s.
Proof.
  induction s as [|c r IH]; simpl; [reflexivity|].
  destruct (trimEnd r) as [|d t] eqn:E.
  - destruct (is_ws c) eqn:W; simpl; [reflexivity|]. rewrite W. reflexivity.
  - cbn [trimEnd] in *. rewrite IH. reflexivity.
Qed.

Lemma trimStart_trimEnd (s : string) :
  trimStart (trimEnd s) = trimEnd (trimStart s).
Proof.
  induction s as [|c r IH]; simpl; [reflexivity|].
  destruct (is_ws c) eqn:W.
  - rewrite <- IH. destruct (trimEnd r) as [|d t]; simpl; [reflexivity|].
    rewrite W. reflexivity.
  - simpl. destruct (trimEnd r) as [|d t]; simpl; rewrite W; reflexivity.
Qed.

Lemma trim_idem (s : string) : trim (trim s) = trim s.
Proof.
  unfold trim.
  rewrite trimStart_trimEnd, trimEnd_idem, trimStart_idem.
  reflexivity.
Qed.

Lemma occurs_trim (a : ascii) (s : string) :
  occurs a s = false -> occurs a (trim s) = false.
Proof.
  intros H. unfold trim. apply occurs_trimEnd, occurs_trimStart, H.
Qed.

(** On a string the falsy test and the replacement agree: the empty string
    is sent to the empty string either way. *)
Lemma stripHtmlTags_string (s : string) :
  stripHtmlTags (JStr s) = Ok (trim (replaceTags s)).
Proof.
  unfold stripHtmlTags. simpl.
  destruct s; reflexivity.
Qed.

End Sanitizer.

(** C8, as stated, fails: a text with a [<] that no [>] closes contains no
    markup delimited by <...>, yet the sanitizer cuts it from the [<] on
    instead of returning it unchanged up to trimming. *)
Lemma sanitize_unclosed_counterexample :
  containsMarkup "Is 3 < 5?" = false
  /\ stripHtmlTags (JStr "Is 3 < 5?") = Ok "Is 3"
  /\ stripHtmlTags (JStr "Is 3 < 5?") <> Ok (trim "Is 3 < 5?").
Proof.
  repeat split; try reflexivity.
  vm_compute. discriminate.
Qed.

(** C8 (amended): the sanitizer returns the empty string for null and for
    absent input; on every string it raises no error, returns the trimmed
    text with every match of [<[^>]*>?] removed, so that a closed tag
    [<...>] is removed, a [<] that is never closed removes the rest of the
    text, and no [<] is left in the result; every string without the
    character [<] is returned unchanged except for trimming; and
    sanitizing [<p>Hello <b>World</b></p>] gives [Hello World]. *)
Theorem sanitize_spec :
  stripHtmlTags JNull = Ok ""
  /\ stripHtmlTags JUndefined = Ok ""
  /\ (forall s, exists t,
        stripHtmlTags (JStr s) = Ok t
        /\ t = trim (replaceTags s)
        /\ trim t = t
        /\ occurs lt_char t = false)
  /\ (forall a b c,
        occurs lt_char a = false -> occurs gt_char b = false ->
        replaceTags (a ++ String lt_char (b ++ String gt_char c))
        = a ++ replaceTags c)
  /\ (forall a b,
        occurs lt_char a = false -> occurs gt_char b = false ->
        replaceTags (a ++ String lt_char b) = a)
  /\ (forall s, occurs lt_char s = false -> stripHtmlTags (JStr s) = Ok (trim s))
  /\ stripHtmlTags (JStr "<p>Hello <b>World</b></p>") = Ok "Hello World".
Proof.
  split; [reflexivity|]. split; [reflexivity|].
  split; [|split; [|split; [|split]]].
  - intros s. exists (trim (replaceTags s)).
    split; [apply stripHtmlTags_string|].
    split; [reflexivity|].
    split; [apply trim_idem|].
    apply occurs_trim, occurs_replaceTags.
  - intros a b c Ha Hb.
    rewrite (replaceTags_prefix _ _ Ha). simpl.
    rewrite (inTag_closed _ _ Hb). reflexivity.
  - intros a b Ha Hb.
    rewrite (replaceTags_prefix _ _ Ha). simpl.
    rewrite (inTag_without_gt _ Hb).
    clear. induction a as [|x r IH]; simpl; [reflexivity|]. now rewrite IH.
  - intros s Hs.
    rewrite stripHtmlTags_string, (replaceTags_without_lt _ Hs). reflexivity.
  - reflexivity.
Qed.

Lemma sanitize_spec_witness :
  replaceTags ("Hello " ++ String lt_char ("b" ++ String gt_char "World"))
  = "Hello " ++ replaceTags "World"
  /\ replaceTags ("Is 3 " ++ String lt_char " 5?") = "Is 3 "
  /\ stripHtmlTags (JStr "  3 > 2 ") = Ok (trim "  3 > 2 ").
Proof.
  destruct sanitize_spec as (_ & _ & _ & Hclosed & Hopen & Hplain & _).
  split; [|split].
  - apply Hclosed; reflexivity.
  - apply Hopen; reflexivity.
  - apply Hplain; reflexivity.
Defined.

(** C10: the sanitizer is idempotent on strings: its result contains no
    [<] and is trimmed, so sanitizing the result again returns it. *)
Theorem sanitize_idempotent :
  forall s, exists t,
    stripHtmlTags (JStr s) = Ok t
    /\ stripHtmlTags (JStr t) = Ok t
    /\ occurs lt_char t = false.
Proof.
  intros s. exists (trim (replaceTags s)).
  assert (H : occurs lt_char (trim (replaceTags s)) = false)
    by apply occurs_trim, occurs_replaceTags.
  split; [apply stripHtmlTags_string|]. split; [|exact H].
  rewrite stripHtmlTags_string, (replaceTags_without_lt _ H), trim_idem.
  reflexivity.
Qed.

(** ** Reasoning about the operators *)

Section Operators.

Lemma bind_Ok {A B} (c : result A) (k : A -> result B) (b : B) :
  bind c k = Ok b -> exists a, c = Ok a /\ k a = Ok b.
Proof.
  destruct c as [a|e]; simpl; [|discriminate].
  intros H. exists a. split; [reflexivity|exact H].
Qed.

Lemma get_Ok (v : JSValue) (k : string) (x : JSValue) :
  get v k = Ok x -> isNullish v = false /\ x = prop v k.
Proof.
  unfold get. destruct (isNullish v); [discriminate|].
  intros H. injection H as <-. split; reflexivity.
Qed.

Lemma get_present (v : JSValue) (k : string) :
  isNullish v = false -> get v k = Ok (prop v k).
Proof. intros H. unfold get. rewrite H. reflexivity. Qed.

Lemma oget_prop (v : JSValue) (k : string) : oget v k = prop v k.
Proof. destruct v; reflexivity. Qed.

Lemma truthy_present (v : JSValue) : truthy v = true -> isNullish v = false.
Proof. destruct v; simpl; congruence. Qed.

Lemma seq_str_eq (v : JSValue) (s : string) : seq_str v s = true -> v = JStr s.
Proof.
  destruct v; simpl; try discriminate.
  intros H. apply String.eqb_eq in H. now subst.
Qed.

(** Only a mapping answers a property read with a string. *)
Lemma seq_str_prop (f : JSValue) (k s : string) :
  seq_str (prop f k) s = true -> exists ps, f = JObj ps.
Proof.
  destruct f; simpl; try discriminate. intros _. eauto.
Qed.

Lemma firstLabeled_mapping (label : string) (fields : list JSValue) (f : JSValue) :
  firstLabeled label fields = Some f ->
  (exists ps, f = JObj ps) /\ prop f "fieldlabel" = JStr label /\ In f fields.
Proof.
  induction fields as [|x r IH]; simpl; [discriminate|].
  destruct (seq_str (prop x "fieldlabel") label) eqn:E.
  - intros H. injection H as <-.
    split; [exact (seq_str_prop _ _ _ E)|].
    split; [exact (seq_str_eq _ _ E)|now left].
  - intros H. destruct (IH H) as (? & ? & ?). auto.
Qed.

(** The search for the weighting field, which guards the read with [?.]. *)
Lemma find_weighting (fields : list JSValue) :
  find (fun field => Ok (seq_str (oget field "fieldlabel") "cc_weighting")) fields
  = Ok (match firstLabeled "cc_weighting" fields with
        | Some f => f
        | None => JUndefined
        end).
Proof.
  induction fields as [|x r IH]; simpl; [reflexivity|].
  rewrite oget_prop.
  destruct (seq_str (prop x "fieldlabel") "cc_weighting"); [reflexivity|exact IH].
Qed.

(** The search for the profile field, which reads [f.fieldlabel] unguarded:
    when it returns, it returns the first field labeled [cc_profile]. *)
Lemma find_profile (fields : list JSValue) (v : JSValue) :
  find (fun f => label <- get f "fieldlabel" ;; Ok (seq_str label "cc_profile"))
       fields = Ok v ->
  v = match firstLabeled "cc_profile" fields with
      | Some f => f
      | None => JUndefined
      end.
Proof.
  induction fields as [|x r IH]; simpl.
  - intros H. now injection H.
  - intros H. apply bind_Ok in H as (b & Hb & H).
    apply bind_Ok in Hb as (label & Hl & Hb).
    apply get_Ok in Hl as [_ ->]. injection Hb as <-.
    destruct (seq_str (prop x "fieldlabel") "cc_profile").
    + now injection H.
    + exact (IH H).
Qed.

(** The two normalizations of the code find the same labeled field as the
    specification's. *)
Lemma firstLabeled_server (label : string) (field : JSValue) :
  firstLabeled label (if isArray field then elemsOf field else [field])
  = firstLabeled label (normalize field).
Proof. destruct field; reflexivity. Qed.

Lemma firstLabeled_index (label : string) (field : JSValue) :
  firstLabeled label (if isArray field then elemsOf field else singletonIfTruthy field)
  = firstLabeled label (normalize field).
Proof.
  destruct field as [| |s|ps|l]; try reflexivity.
  simpl. unfold singletonIfTruthy. simpl. destruct (String.eqb s ""); reflexivity.
Qed.

End Operators.

Tactic Notation "inv_bind" hyp(H) "as" ident(a) ident(Ha) :=
  apply bind_Ok in H as (a & Ha & H).

(** ** The item classifier *)

Section Classifier.

Lemma newQuestion_Ok (item initial : JSValue) (q : Question) :
  newQuestion item initial = Ok q ->
  isNullish item = false
  /\ responseType q = "N/A" /\ options q = [] /\ correctAnswer q = initial
  /\ score q = JStr "N/A".
Proof.
  unfold newQuestion, materialText. intros H.
  inv_bind H as ident Hident. apply get_Ok in Hident as [Hitem _].
  inv_bind H as presentation Hpres. inv_bind H as qtext Hq.
  injection H as <-. simpl. auto.
Qed.

(** The code's score resolution computes the specification's. *)
Lemma resolveScore_spec (item : JSValue) (fields : list JSValue) (s : JSValue) :
  isNullish item = false ->
  firstLabeled "cc_weighting" fields
  = firstLabeled "cc_weighting" (metadataFields item) ->
  resolveScore item fields = Ok s ->
  s = resolvedScore item.
Proof.
  intros Hitem Hfields. unfold resolveScore, resolvedScore.
  rewrite find_weighting, Hfields. simpl.
  destruct (firstLabeled "cc_weighting" (metadataFields item)) as [f|] eqn:Ef.
  - apply firstLabeled_mapping in Ef as ([ps ->] & _ & _). simpl.
    intros H. now injection H.
  - simpl. rewrite (get_present _ _ Hitem). simpl.
    unfold firstCondition.
    destruct (prop item "resprocessing") as [| |t|ps|l]; simpl;
      try (intros H; now injection H).
    + destruct (String.eqb t ""); simpl; intros H; now injection H.
    + destruct (assoc "respcondition" ps) as [| |t|qs|l]; simpl;
        try (intros H; now injection H).
      * destruct (String.eqb t ""); simpl; intros H; now injection H.
      * rewrite oget_prop. simpl.
        destruct (truthy (assoc "setvar" qs)) eqn:Et.
        -- rewrite (get_present _ _ (truthy_present _ Et)). simpl.
           intros H. now injection H.
        -- intros H. now injection H.
      * destruct l as [|c l]; simpl; [intros H; now injection H|].
        rewrite oget_prop.
        destruct (truthy (prop c "setvar")) eqn:Et.
        -- rewrite (get_present _ _ (truthy_present _ Et)). simpl.
           intros H. now injection H.
        -- intros H. now injection H.
Qed.

Lemma multipleChoice_keeps (item : JSValue) (choices : list JSValue) (q q' : Question) :
  multipleChoice item choices q = Ok q' ->
  responseType q' = responseType q /\ score q' = score q.
Proof.
  unfold multipleChoice. intros H.
  inv_bind H as opts Hopts. inv_bind H as resprocessing Hrp.
  inv_bind H as correctResponse Hcr.
  destruct (truthy correctResponse).
  - inv_bind H as correctIdent Hci. injection H as <-. auto.
  - injection H as <-. auto.
Qed.

Lemma essayOrUnknown_Ok (profileField : JSValue) (q q' : Question) :
  essayOrUnknown profileField q = Ok q' ->
  (isEssay profileField = Ok true /\ essayOutcome q')
  \/ (isEssay profileField = Ok false
      /\ responseType q' = Unknown /\ score q' = score q
      /\ correctAnswer q' = correctAnswer q).
Proof.
  unfold essayOrUnknown. intros H. inv_bind H as essay He.
  destruct essay; injection H as <-.
  - left. split; [exact He|]. repeat split.
  - right. auto.
Qed.

End Classifier.

Section ScoreResolution.

Lemma server_resolved (item : JSValue) (q : Question) :
  Server.processItem item = Ok q -> resolved item q.
Proof.
  unfold Server.processItem. intros H.
  inv_bind H as question Hq.
  apply newQuestion_Ok in Hq as (Hitem & _ & _ & _ & _).
  inv_bind H as itemmetadata Hmd. apply get_Ok in Hmd as [_ ->].
  inv_bind H as sc Hsc.
  apply (resolveScore_spec _ _ _ Hitem (firstLabeled_server _ _)) in Hsc.
  inv_bind H as presentation Hp.
  destruct (truthy (opath presentation ["response_lid"; "render_choice"])).
  - apply multipleChoice_keeps in H as [Ht Hs]. simpl in Ht, Hs.
    right. split; [now left|]. now rewrite Hs.
  - destruct (truthy (oget presentation "response_str")).
    + inv_bind H as correct Hc. injection H as <-. simpl.
      right. split; [now right; left|exact Hsc].
    + apply essayOrUnknown_Ok in H as [[_ He]|(_ & Ht & Hs & _)].
      * now left.
      * right. simpl in Hs. split; [now right; right|]. now rewrite Hs.
Qed.

Lemma index_resolved (item : JSValue) (q : Question) :
  Index.processItem item = Ok q -> resolved item q.
Proof.
  unfold Index.processItem. intros H.
  inv_bind H as question Hq.
  apply newQuestion_Ok in Hq as (Hitem & _ & _ & _ & _).
  inv_bind H as itemmetadata Hmd. apply get_Ok in Hmd as [_ ->].
  inv_bind H as sc Hsc.
  apply (resolveScore_spec _ _ _ Hitem (firstLabeled_index _ _)) in Hsc.
  inv_bind H as profileField Hpf.
  match type of H with
  | (if ?c then _ else _) = _ => destruct c
  end.
  - inv_bind H as presentation Hp. inv_bind H as choices Hch.
    apply multipleChoice_keeps in H as [Ht Hs]. simpl in Ht, Hs.
    right. split; [now left|]. now rewrite Hs.
  - match type of H with
    | (if ?c then _ else _) = _ => destruct c
    end.
    + inv_bind H as correct Hc. injection H as <-. simpl.
      right. split; [now right; left|exact Hsc].
    + apply essayOrUnknown_Ok in H as [[_ He]|(_ & Ht & Hs & _)].
      * now left.
      * right. simpl in Hs. split; [now right; right|]. now rewrite Hs.
Qed.

End ScoreResolution.

Section EssayOverride.

#[local] Abbreviation essayField := (hasEntry "cc_profile" "cc.essay.v0p1").

Lemma find_essay (l : list JSValue) (v : JSValue) :
  find (fun f => label <- get f "fieldlabel" ;;
                 if seq_str label "cc_profile"
                 then entry <- get f "fieldentry" ;;
                      Ok (seq_str entry "cc.essay.v0p1")
                 else Ok false) l = Ok v ->
  existsb essayField l = true ->
  truthy v = true.
Proof.
  induction l as [|x r IH]; simpl; [discriminate 2|].
  intros H Hex. inv_bind H as b Hb.
  inv_bind Hb as label Hl. apply get_Ok in Hl as [Hx ->].
  assert (Eb : b = essayField x).
  { unfold hasEntry.
    destruct (seq_str (prop x "fieldlabel") "cc_profile"); simpl.
    - rewrite (get_present _ _ Hx) in Hb. simpl in Hb. now injection Hb.
    - now injection Hb. }
  subst b. destruct (essayField x) eqn:Ex.
  - injection H as <-. unfold hasEntry in Ex.
    apply andb_true_iff in Ex as [Ex _].
    apply seq_str_prop in Ex as [ps ->]. reflexivity.
  - simpl in Hex. exact (IH H Hex).
Qed.

Lemma isEssay_declared (field : JSValue) (b : bool) :
  isEssay field = Ok b ->
  existsb essayField (normalize field) = true ->
  b = true.
Proof.
  unfold isEssay. destruct field as [| |s|ps|l]; simpl;
    try discriminate 2.
  - intros H. injection H as <-. unfold hasEntry.
    rewrite !oget_prop, orb_false_r. auto.
  - intros H Hex. inv_bind H as found Hf. injection H as <-.
    exact (find_essay _ _ Hf Hex).
Qed.

Lemma declared_profile (l : list JSValue) :
  existsb essayField l = true ->
  exists f, firstLabeled "cc_profile" l = Some f.
Proof.
  induction l as [|x r IH]; simpl; [discriminate|].
  intros H. destruct (seq_str (prop x "fieldlabel") "cc_profile") eqn:E.
  - eauto.
  - unfold hasEntry in H at 1. rewrite E in H. simpl in H. exact (IH H).
Qed.

Lemma server_essay (item : JSValue) (q : Question) :
  declares "cc_profile" "cc.essay.v0p1" item = true ->
  Server.processItem item = Ok q ->
  hasChoiceRendering item = false -> hasFreeText item = false ->
  essayOutcome q.
Proof.
  unfold declares, metadataFields, hasChoiceRendering, hasFreeText,
    Server.processItem.
  intros Hd H Hc Hf.
  inv_bind H as question Hq. inv_bind H as itemmetadata Hmd.
  apply get_Ok in Hmd as [_ ->]. inv_bind H as sc Hsc.
  inv_bind H as presentation Hp. apply get_Ok in Hp as [_ ->].
  rewrite Hc in H. simpl in Hf. rewrite Hf in H.
  apply essayOrUnknown_Ok in H as [[_ He]|(He & _)]; [exact He|].
  apply isEssay_declared in He; [discriminate|exact Hd].
Qed.

Lemma index_essay (item : JSValue) (q : Question) :
  declares "cc_profile" "cc.essay.v0p1" item = true ->
  Index.processItem item = Ok q ->
  (forall f, firstLabeled "cc_profile" (metadataFields item) = Some f ->
             prop f "fieldentry" = JStr "cc.essay.v0p1") ->
  essayOutcome q.
Proof.
  unfold declares, Index.processItem.
  intros Hd H Hfirst.
  apply declared_profile in Hd as [f Hf]. specialize (Hfirst f Hf).
  inv_bind H as question Hq. inv_bind H as itemmetadata Hmd.
  apply get_Ok in Hmd as [_ ->]. inv_bind H as sc Hsc.
  inv_bind H as profileField Hpf.
  apply find_profile in Hpf. rewrite firstLabeled_index in Hpf.
  fold (metadataFields item) in Hpf. rewrite Hf in Hpf. subst profileField.
  apply firstLabeled_mapping in Hf as ([ps ->] & Hl & _).
  simpl truthy in H. cbv iota in H. rewrite Hfirst in H.
  simpl in H.
  apply essayOrUnknown_Ok in H as [[_ He]|(He & _)]; [exact He|].
  unfold isEssay in He. simpl isArray in He. cbv iota in He.
  rewrite !oget_prop, Hl, Hfirst in He. discriminate He.
Qed.

End EssayOverride.

(** C3: an essay item exported with its free-text structure declares
    [cc_profile = cc.essay.v0p1], yet [server.js] tests the structure
    before the profile and answers a fill-in-the-blank question that keeps
    the weighting as its score, where the claim says Essay, ["Manual
    scoring required."] and ["Manual grading"].  The item callback of
    [api/index.js] gives the essay outcome on the same item, and
    [server.js] gives it once the free-text structure is taken away. *)
Theorem essay_profile_behind_structure :
  declares "cc_profile" "cc.essay.v0p1" (Sample.essay Sample.freeText) = true
  /\ (exists q, Server.processItem (Sample.essay Sample.freeText) = Ok q
                /\ responseType q = FillInBlank
                /\ correctAnswer q = JStr "N/A"
                /\ score q = JStr "10")
  /\ (exists q, Index.processItem (Sample.essay Sample.freeText) = Ok q
                /\ essayOutcome q)
  /\ (exists q, Server.processItem (Sample.essay []) = Ok q /\ essayOutcome q).
Proof.
  split; [reflexivity|].
  repeat split; eexists; (split; [reflexivity|]); repeat split.
Qed.

(** An item whose metadata declares [cc_profile = cc.essay.v0p1] and that
    reaches the essay case of the response-type detection - in [server.js]
    an item with neither a choice-rendering nor a free-text response
    structure, in the callback of [api/index.js] an item whose first
    [cc_profile] field is the essay one - comes out with the essay
    outcome, whatever weighting field or response-condition it carries. *)
Theorem essay_override :
  forall item q,
    declares "cc_profile" "cc.essay.v0p1" item = true ->
    (Server.processItem item = Ok q ->
     hasChoiceRendering item = false -> hasFreeText item = false ->
     essayOutcome q)
    /\ (Index.processItem item = Ok q ->
        (forall f, firstLabeled "cc_profile" (metadataFields item) = Some f ->
                   prop f "fieldentry" = JStr "cc.essay.v0p1") ->
        essayOutcome q).
Proof.
  intros item q Hd. split.
  - now apply server_essay.
  - now apply index_essay.
Qed.

Lemma essay_override_witness :
  (exists q, Server.processItem (Sample.essay []) = Ok q /\ essayOutcome q)
  /\ (exists q, Index.processItem (Sample.essay Sample.freeText) = Ok q
                /\ essayOutcome q).
Proof.
  split.
  - eexists. split; [reflexivity|].
    apply (proj1 (essay_override (Sample.essay []) _ eq_refl));
      reflexivity.
  - eexists. split; [reflexivity|].
    apply (proj2 (essay_override (Sample.essay Sample.freeText) _ eq_refl));
      [reflexivity|].
    intros f Hf. vm_compute in Hf. injection Hf as <-. reflexivity.
Defined.

(** ** Correct answers, by representation of the response-conditions *)

Section CorrectAnswer.

Lemma find_setting (conds : list JSValue) (v : JSValue) :
  find (fun cond => setvar <- get cond "setvar" ;; Ok (truthy setvar)) conds = Ok v ->
  match firstSetting conds with
  | Some c => v = c /\ truthy v = true
  | None => v = JUndefined
  end.
Proof.
  induction conds as [|c r IH]; simpl.
  - intros H. now injection H.
  - intros H. inv_bind H as b Hb. inv_bind Hb as setvar Hs.
    apply get_Ok in Hs as [_ ->]. injection Hb as <-.
    destruct (truthy (prop c "setvar")) eqn:E.
    + injection H as <-. split; [reflexivity|].
      destruct c; try discriminate E. reflexivity.
    + exact (IH H).
Qed.

(** With the response-conditions in a list, the multiple-choice branch
    answers as specified: the trimmed equality target of the first
    condition that sets a variable, resolved against the options just
    built, and [{id:"N/A", text:"N/A"}] without such a condition. *)
Lemma multipleChoice_from_list (item : JSValue) (choices conds : list JSValue)
    (q q' : Question) :
  prop (prop item "resprocessing") "respcondition" = JArr conds ->
  options q = [] ->
  multipleChoice item choices q = Ok q' ->
  mapM pushChoice choices = Ok (options q')
  /\ match firstSetting conds with
     | None => correctAnswer q' = answer (JStr "N/A") (JStr "N/A")
     | Some c =>
         exists target,
           orElse (opath (prop c "conditionvar") ["varequal"; "#"]) (JStr "")
           = JStr target
           /\ correctAnswer q'
              = answer (JStr (trim target))
                       (choiceText (findOption (JStr (trim target)) (options q')))
     end.
Proof.
  unfold multipleChoice. intros Hrc Hq H.
  inv_bind H as opts Hopts. rewrite Hq in H. simpl app in H.
  inv_bind H as resprocessing Hrp. apply get_Ok in Hrp as [_ ->].
  rewrite oget_prop, Hrc in H. simpl ocallFind in H.
  inv_bind H as correctResponse Hcr. apply find_setting in Hcr.
  destruct (firstSetting conds) as [c|].
  - destruct Hcr as [-> Ht]. rewrite Ht in H.
    inv_bind H as correctIdent Hci. injection H as <-.
    unfold callTrim in Hci.
    destruct (orElse (opath (prop c "conditionvar") ["varequal"; "#"]) (JStr ""))
      as [| |target| |]; try discriminate Hci.
    injection Hci as <-.
    split; [exact Hopts|]. exists target. split; reflexivity.
  - subst correctResponse. simpl in H. injection H as <-. simpl.
    split; [exact Hopts|reflexivity].
Qed.

(** With exactly one response-condition, a mapping, the multiple-choice
    branch never returns. *)
Lemma multipleChoice_from_mapping (item : JSValue) (choices : list JSValue)
    (ps : list (string * JSValue)) (q q' : Question) :
  prop (prop item "resprocessing") "respcondition" = JObj ps ->
  multipleChoice item choices q <> Ok q'.
Proof.
  unfold multipleChoice. intros Hrc H.
  inv_bind H as opts Hopts.
  inv_bind H as resprocessing Hrp. apply get_Ok in Hrp as [_ ->].
  rewrite oget_prop, Hrc in H. simpl in H. discriminate H.
Qed.

(** With exactly one response-condition, a mapping without a property
    named [0], the fill-in-the-blank answer is the default. *)
Lemma fillInBlank_from_mapping (item : JSValue) (ps : list (string * JSValue)) :
  isNullish item = false ->
  prop (prop item "resprocessing") "respcondition" = JObj ps ->
  assoc "0" ps = JUndefined ->
  fillInBlankAnswer item = Ok (JStr "N/A").
Proof.
  unfold fillInBlankAnswer. intros Hitem Hrc H0.
  rewrite (get_present _ _ Hitem). cbn [bind].
  rewrite oget_prop, Hrc. unfold oat0, at0. cbn [isNullish].
  rewrite H0. reflexivity.
Qed.

End CorrectAnswer.

(** ** Where the code leaves the specification *)

(** C1: a multiple-choice item whose response processing holds exactly one
    response-condition (a mapping rather than a list) has no [find] to
    call: both extractors throw instead of answering [{id:"A",
    text:"Paris"}].  With the same condition in a list they answer it, the
    identifier trimmed. *)
Theorem multiple_choice_single_condition :
  Server.processItem (Sample.capital (Sample.condition "A" "1")) = Throw TypeError
  /\ Index.processItem (Sample.capital (Sample.condition "A" "1")) = Throw TypeError
  /\ (exists q,
        Server.processItem (Sample.capital (JArr [Sample.condition " A " "1"])) = Ok q
        /\ responseType q = MultipleChoice
        /\ options q = [mkChoice (JStr "A") (JStr "Paris");
                        mkChoice (JStr "B") (JStr "Rome")]
        /\ correctAnswer q = answer (JStr "A") (JStr "Paris"))
  /\ (exists q,
        Index.processItem (Sample.capital (JArr [Sample.condition " A " "1"])) = Ok q
        /\ correctAnswer q = answer (JStr "A") (JStr "Paris")).
Proof.
  split; [reflexivity|]. split; [reflexivity|]. split.
  - eexists. split; [reflexivity|]. repeat split.
  - eexists. split; reflexivity.
Qed.

(** C6: for a fill-in-the-blank item whose response processing holds
    exactly one response-condition, index [0] of the mapping is absent and
    both extractors answer ["N/A"] although the condition equates to
    ["Paris"]; with the same condition in a list they answer ["Paris"]. *)
Theorem fill_in_blank_single_condition :
  (exists q,
     Server.processItem (Sample.blank (Sample.condition "Paris" "1")) = Ok q
     /\ responseType q = FillInBlank /\ correctAnswer q = JStr "N/A")
  /\ (exists q,
        Index.processItem (Sample.blank (Sample.condition "Paris" "1")) = Ok q
        /\ responseType q = FillInBlank /\ correctAnswer q = JStr "N/A")
  /\ (exists q,
        Server.processItem (Sample.blank (JArr [Sample.condition "Paris" "1"])) = Ok q
        /\ correctAnswer q = JStr "Paris")
  /\ (exists q,
        Index.processItem (Sample.blank (JArr [Sample.condition "Paris" "1"])) = Ok q
        /\ correctAnswer q = JStr "Paris").
Proof.
  repeat split; eexists; (split; [reflexivity|]); repeat split.
Qed.

(** Whatever the item, an absent question text is stored as the empty
    string in the initial question. *)
Lemma absent_question_text (item initial : JSValue) (q : Question) :
  newQuestion item initial = Ok q ->
  isNullish (opath (prop item "presentation") ["material"; "mattext"; "#"]) = true ->
  questionText q = JStr "".
Proof.
  unfold newQuestion, materialText. intros H Habs.
  inv_bind H as ident Hi. inv_bind H as presentation Hp.
  apply get_Ok in Hp as [_ ->].
  destruct (opath (prop item "presentation") ["material"; "mattext"; "#"]);
    try discriminate Habs; simpl in H; now injection H as <-.
Qed.

(** C4: an absent material text comes out as the empty string, not as
    ["N/A"]: the sanitizer answers [""] for an absent input, which is not
    nullish, so the default behind [??] is never taken.  This holds for the
    question text and for the text of a choice; an absent identifier does
    become ["N/A"]. *)
Theorem absent_text_is_empty :
  materialText JUndefined = Ok (JStr "")
  /\ (exists q, Server.processItem Sample.bare = Ok q /\ questionText q = JStr "")
  /\ (exists q, Index.processItem Sample.bare = Ok q /\ questionText q = JStr "")
  /\ (exists q, Server.processItem Sample.silent = Ok q
                /\ options q = [mkChoice (JStr "A") (JStr "")])
  /\ pushChoice (JObj []) = Ok (mkChoice (JStr "N/A") (JStr "")).
Proof.
  split; [reflexivity|].
  repeat split; try (eexists; split; reflexivity).
Qed.

(** The two full extractors assign one of the four response types to
    every question they produce. *)
Lemma full_extractors_response_type (item : JSValue) (q : Question) :
  Server.processItem item = Ok q \/ Index.processItem item = Ok q ->
  In (responseType q) responseTypes.
Proof.
  intros H.
  assert (R : resolved item q)
    by (destruct H; [now apply server_resolved|now apply index_resolved]).
  unfold responseTypes.
  destruct R as [(Ht & _)|[[Ht|[Ht|Ht]] _]]; rewrite Ht; simpl; auto.
Qed.

(** C7: [api/upload.js] recognizes choice rendering only and leaves the
    initial placeholder ["N/A"] as the response type of every other item;
    the placeholder is none of the four response types. *)
Theorem upload_response_type_placeholder :
  exists q, Upload.processItem Sample.bare = Ok q
            /\ responseType q = "N/A"
            /\ ~ In (responseType q) responseTypes.
Proof.
  eexists. split; [reflexivity|]. split; [reflexivity|].
  simpl. intros [H|[H|[H|[H|[]]]]]; discriminate H.
Qed.

(** ** The upload endpoint *)

Section Cleanup.

Lemma prefix_join (dir name : string) :
  prefix (dir ++ "/") (join dir name) = true.
Proof.
  unfold join. induction dir as [|c r IH]; simpl; [now destruct name|].
  destruct (ascii_dec c c) as [_|N]; [exact IH|now elim N].
Qed.

Lemma prefix_longer (dir : string) : prefix (dir ++ "/") dir = false.
Proof.
  induction dir as [|c r IH]; simpl; [reflexivity|].
  destruct (ascii_dec c c) as [_|N]; [exact IH|now elim N].
Qed.

Lemma In_unlink (env : Env) (p x : string) (disk : Disk) :
  In x (logged (unlink env p disk))
  <-> In x disk /\ unlinkFails env || negb (String.eqb x p) = true.
Proof.
  unfold logged, unlink. destruct (unlinkFails env); simpl.
  - tauto.
  - apply filter_In.
Qed.

Lemma In_rm (env : Env) (dir x : string) (disk : Disk) :
  In x (logged (rm env dir disk))
  <-> In x disk
      /\ (if rmFails env
          then negb (prefix (dir ++ "/") x && rmReached env x)
          else negb (String.eqb x dir) && negb (prefix (dir ++ "/") x)) = true.
Proof.
  unfold logged, rm. destruct (rmFails env); simpl; apply filter_In.
Qed.

Variable extract : Env -> JSValue -> result Response.

(** The disk a handler with a [finally] block leaves. *)
Lemma withCleanup_disk (env : Env) (disk : Disk) :
  snd (withCleanup extract env (stage env disk))
  = match upload env with
    | None => disk
    | Some p =>
        match mkdtemp env with
        | None => logged (unlink env p (p :: disk))
        | Some dir =>
            let unpacked := (map (join dir) (unzipped env) ++ dir :: p :: disk)%list in
            if settles env
            then logged (rm env dir (logged (unlink env p unpacked)))
            else unpacked
        end
    end.
Proof.
  unfold withCleanup, stage, tryBlock, unzipFile, manifestDoc, settles.
  destruct (upload env) as [p|]; [|reflexivity].
  destruct (mkdtemp env) as [dir|]; [|reflexivity].
  destruct (unzip env) as [[m|]| |]; reflexivity.
Qed.

(** The disk the handler without one leaves. *)
Lemma upload_handler_disk (env : Env) (disk : Disk) :
  snd (Upload.handler env disk)
  = if negb (String.eqb (method env) "POST") then disk
    else match upload env with
         | None => disk
         | Some p =>
             match mkdtemp env with
             | None => p :: disk
             | Some dir => (map (join dir) (unzipped env) ++ dir :: p :: disk)%list
             end
         end.
Proof.
  unfold Upload.handler, stage, tryBlock, unzipFile, manifestDoc.
  destruct (negb (String.eqb (method env) "POST")); [reflexivity|].
  destruct (upload env) as [p|]; [|reflexivity].
  destruct (mkdtemp env) as [dir|]; [|reflexivity].
  destruct (unzip env) as [[m|]| |]; reflexivity.
Qed.

Lemma withCleanup_released (env : Env) (disk : Disk) (p : string) :
  upload env = Some p ->
  released env p (snd (withCleanup extract env (stage env disk))).
Proof.
  intros Hu. rewrite withCleanup_disk, Hu. unfold released, underScratch.
  destruct (mkdtemp env) as [dir|] eqn:Ed; cbv zeta.
  - assert (Hp : In p (map (join dir) (unzipped env) ++ dir :: p :: disk)%list)
      by (apply in_app_iff; right; simpl; auto).
    assert (Hd : In dir (map (join dir) (unzipped env) ++ dir :: p :: disk)%list)
      by (apply in_app_iff; right; now left).
    split; [|split; [|split; [|split]]].
    + intros Hs Hf. rewrite Hs. intros H.
      apply In_rm in H as [H _]. apply In_unlink in H as [_ H].
      rewrite Hf, String.eqb_refl in H. discriminate H.
    + intros Hs Hf dir' E. injection E as <-. rewrite Hs. split.
      * intros H. apply In_rm in H as [_ H].
        rewrite Hf, String.eqb_refl in H. discriminate H.
      * intros name H. apply In_rm in H as [_ H].
        rewrite Hf, prefix_join, andb_false_r in H. discriminate H.
    + intros Hf Hs. apply orb_false_iff in Hs as [Hpd Hpp].
      destruct (settles env); [|exact Hp].
      apply In_rm. split.
      * apply In_unlink. split; [exact Hp|now rewrite Hf].
      * rewrite Hpp, Hpd. destruct (rmFails env); reflexivity.
    + intros Hf dir' E Hn. injection E as <-.
      destruct (settles env); [|exact Hd].
      apply In_rm. split.
      * apply In_unlink. split; [exact Hd|].
        apply String.eqb_neq in Hn. rewrite Hn. apply orb_true_r.
      * now rewrite Hf, prefix_longer.
    + intros Hs. rewrite Hs. split; [exact Hp|].
      intros dir' E. injection E as <-. exact Hd.
  - unfold settles. rewrite Ed.
    split; [|split; [|split; [|split]]]; try discriminate.
    + intros _ Hf H. apply In_unlink in H as [_ H].
      rewrite Hf, String.eqb_refl in H. discriminate H.
    + intros Hf _. apply In_unlink. split; [now left|now rewrite Hf].
Qed.

Lemma withCleanup_frame (env : Env) (disk : Disk) (x : string) :
  owned env x = false ->
  (In x (snd (withCleanup extract env (stage env disk))) <-> In x disk).
Proof.
  rewrite withCleanup_disk. unfold owned.
  destruct (upload env) as [p|]; [|tauto].
  intros Ho. apply orb_false_iff in Ho as [Hp Ho].
  assert (Np : p <> x) by (intros ->; rewrite String.eqb_refl in Hp; discriminate).
  destruct (mkdtemp env) as [dir|]; cbv zeta.
  - apply orb_false_iff in Ho as [Hd Hx].
    assert (Nd : dir <> x)
      by (intros ->; rewrite String.eqb_refl in Hd; discriminate).
    assert (E : In x (map (join dir) (unzipped env) ++ dir :: p :: disk)%list
                <-> In x disk).
    { rewrite in_app_iff, in_map_iff. simpl. split.
      - intros [(name & <- & _)|[H|[H|H]]]; try tauto.
        rewrite prefix_join in Hx. discriminate Hx.
      - auto. }
    destruct (settles env); [|exact E].
    rewrite In_rm, In_unlink, E, Hp, Hd, Hx. simpl.
    rewrite orb_true_r. destruct (rmFails env); tauto.
  - rewrite In_unlink, Hp. simpl. rewrite orb_true_r. tauto.
Qed.

Lemma withCleanup_status (env : Env) (disk : Disk) (manifest : JSValue) (e : Exn) :
  upload env <> None ->
  manifestDoc env = Some manifest ->
  extract env manifest = Throw e ->
  fst (withCleanup extract env (stage env disk)) = R500.
Proof.
  unfold withCleanup, stage, tryBlock, unzipFile. intros Hu Hm He.
  destruct (upload env) as [p|]; [|now elim Hu].
  destruct (mkdtemp env); [|reflexivity].
  rewrite Hm. unfold manifestDoc in Hm.
  destruct (unzip env); try discriminate Hm.
  rewrite He. reflexivity.
Qed.

End Cleanup.

(** C5: [server.js] filters the resources node as parsed.  A manifest with
    one resource (a mapping, not a list) or with none makes the handler
    fail with status 500 instead of returning an empty or a one-quiz list,
    and a resource without a file reference fails it too; [api/index.js]
    normalizes the node and the file entry and drops such a resource. *)
Theorem server_resources_not_normalized :
  Server.quizFiles (Sample.manifest (Sample.resource "webcontent" "page.html"))
  = Throw TypeError
  /\ Server.quizFiles (Sample.manifest JUndefined) = Throw TypeError
  /\ fst (Server.handler
            (Sample.package (Sample.manifest (Sample.resource "webcontent" "page.html")))
            []) = R500
  /\ fst (Server.handler
            (Sample.package (Sample.manifest (Sample.resource assessmentType "quiz1.xml")))
            []) = R500
  /\ fst (Server.handler
            (Sample.package
               (Sample.manifest (JArr [JObj [("type", JStr assessmentType)]])))
            []) = R500
  /\ fst (Index.handler
            (Sample.package (Sample.manifest (Sample.resource "webcontent" "page.html")))
            []) = R200 (JStr "N/A") []
  /\ fst (Index.handler (Sample.package (Sample.manifest JUndefined)) [])
     = R200 (JStr "N/A") []
  /\ fst (Index.handler
            (Sample.package
               (Sample.manifest (JArr [JObj [("type", JStr assessmentType)]])))
            []) = R200 (JStr "N/A") []
  /\ exists q,
       fst (Index.handler
              (Sample.package (Sample.manifest (Sample.resource assessmentType "quiz1.xml")))
              []) = R200 (JStr "N/A") [mkQuiz (JStr "Geography") [q]].
Proof.
  repeat split; try reflexivity.
  eexists. reflexivity.
Qed.

(** C9: the handler of [api/upload.js] has no [finally]: after a
    successful run, and after a failed one, the staged upload and the
    scratch directory with the extracted files are still on the disk.
    [server.js] leaves an empty disk in both runs. *)
Theorem upload_leaves_scratch :
  let good := Sample.package (Sample.manifest (Sample.resource assessmentType "quiz1.xml")) in
  let bad := Sample.package JNull in
  (exists q, fst (Upload.handler good []) = R200 (JStr "N/A") [q])
  /\ snd (Upload.handler good [])
     = ["/tmp/imscc-a1/imsmanifest.xml"; "/tmp/imscc-a1/quiz1.xml";
        "/tmp/imscc-a1"; "/tmp/upload_1"]
  /\ Upload.handler bad []
     = (R500, ["/tmp/imscc-a1/imsmanifest.xml"; "/tmp/imscc-a1/quiz1.xml";
               "/tmp/imscc-a1"; "/tmp/upload_1"])
  /\ snd (Server.handler good []) = []
  /\ Server.handler bad [] = (R500, []).
Proof.
  repeat split; try reflexivity.
  eexists. reflexivity.
Qed.

(** * Further properties of the code *)

(** ** Loops: [map], [forEach] and the resource loop *)

Section Loops.

Context {A B : Type} (f : A -> result B).

Lemma mapM_Forall2 (l : list A) (r : list B) :
  mapM f l = Ok r -> Forall2 (fun x y => f x = Ok y) l r.
Proof.
  revert r. induction l as [|x l IH]; simpl; intros r H.
  - injection H as <-. constructor.
  - inv_bind H as y Hy. inv_bind H as ys Hys. injection H as <-.
    constructor; [exact Hy|exact (IH _ Hys)].
Qed.

Lemma mapM_throws (l : list A) (x : A) (e : Exn) :
  In x l -> f x = Throw e -> exists e', mapM f l = Throw e'.
Proof.
  induction l as [|y l IH]; simpl; [intros []|].
  intros [->|Hin] Hx.
  - rewrite Hx. simpl. eauto.
  - destruct (f y) as [b|e0]; simpl; [|eauto].
    destruct (IH Hin Hx) as [e' ->]. simpl. eauto.
Qed.

End Loops.

Lemma collect_pushed (step : JSValue -> result (option Quiz))
    (quizFiles : list JSValue) (quizzes : list Quiz) :
  collect step quizFiles = Ok quizzes ->
  exists results,
    Forall2 (fun resource r => step resource = Ok r) quizFiles results
    /\ quizzes = pushed results.
Proof.
  revert quizzes. induction quizFiles as [|x l IH]; simpl; intros quizzes H.
  - injection H as <-. exists []. split; [constructor|reflexivity].
  - inv_bind H as r Hr. inv_bind H as more Hm. injection H as <-.
    destruct (IH _ Hm) as (rs & HF & ->).
    exists (r :: rs). split; [constructor; assumption|].
    destruct r; reflexivity.
Qed.

Lemma collect_throws (step : JSValue -> result (option Quiz))
    (quizFiles : list JSValue) (resource : JSValue) (e : Exn) :
  In resource quizFiles -> step resource = Throw e ->
  exists e', collect step quizFiles = Throw e'.
Proof.
  induction quizFiles as [|y l IH]; simpl; [intros []|].
  intros [->|Hin] Hx.
  - rewrite Hx. simpl. eauto.
  - destruct (step y) as [b|e0]; simpl; [|eauto].
    destruct (IH Hin Hx) as [e' ->]. simpl. eauto.
Qed.

(** ** The decision order of the response type *)

Section DecisionOrder.

Lemma find_essay_truthy (l : list JSValue) (v : JSValue) :
  find (fun f => label <- get f "fieldlabel" ;;
                 if seq_str label "cc_profile"
                 then entry <- get f "fieldentry" ;;
                      Ok (seq_str entry "cc.essay.v0p1")
                 else Ok false) l = Ok v ->
  truthy v = existsb (hasEntry "cc_profile" "cc.essay.v0p1") l.
Proof.
  induction l as [|x r IH]; simpl.
  - intros H. now injection H as <-.
  - intros H. inv_bind H as b Hb.
    inv_bind Hb as label Hl. apply get_Ok in Hl as [Hx ->].
    assert (Eb : b = hasEntry "cc_profile" "cc.essay.v0p1" x).
    { unfold hasEntry.
      destruct (seq_str (prop x "fieldlabel") "cc_profile"); simpl.
      - rewrite (get_present _ _ Hx) in Hb. simpl in Hb. now injection Hb.
      - now injection Hb. }
    subst b. destruct (hasEntry "cc_profile" "cc.essay.v0p1" x) eqn:Ex.
    + injection H as <-. unfold hasEntry in Ex.
      apply andb_true_iff in Ex as [Ex _].
      apply seq_str_prop in Ex as [ps ->]. reflexivity.
    + simpl. exact (IH H).
Qed.

(** When the essay test returns, it returns whether some field of the
    normalized list is the essay profile. *)
Lemma isEssay_normalized (field : JSValue) (b : bool) :
  isEssay field = Ok b ->
  b = existsb (hasEntry "cc_profile" "cc.essay.v0p1") (normalize field).
Proof.
  unfold isEssay. destruct field as [| |s|ps|l]; simpl;
    try (intros H; now injection H as <-).
  - intros H. injection H as <-. unfold hasEntry.
    rewrite !oget_prop, orb_false_r. reflexivity.
  - intros H. inv_bind H as found Hf. injection H as <-.
    exact (find_essay_truthy _ _ Hf).
Qed.

End DecisionOrder.

(** The response type of a produced question, per variant. *)
Lemma server_type :
  forall item q,
    Server.processItem item = Ok q -> responseType q = serverType item.
Proof.
  unfold Server.processItem, serverType, hasChoiceRendering, hasFreeText, declares,
    metadataFields.
  intros item q H.
  inv_bind H as question Hq. inv_bind H as itemmetadata Hmd.
  apply get_Ok in Hmd as [_ ->]. inv_bind H as sc Hsc.
  inv_bind H as presentation Hp. apply get_Ok in Hp as [_ ->].
  destruct (truthy (opath (prop item "presentation") ["response_lid"; "render_choice"])).
  - apply multipleChoice_keeps in H as [Ht _]. exact Ht.
  - change (opath (prop item "presentation") ["response_str"])
      with (oget (prop item "presentation") "response_str").
    destruct (truthy (oget (prop item "presentation") "response_str")).
    + inv_bind H as correct Hc. now injection H as <-.
    + apply essayOrUnknown_Ok in H as [[He (Ht & _)]|(He & Ht & _)];
        apply isEssay_normalized in He; rewrite <- He; exact Ht.
Qed.

(** The callback of [api/index.js] decides by the entry of the first field
    labeled [cc_profile] alone. *)
Lemma index_type :
  forall item q,
    Index.processItem item = Ok q -> responseType q = indexType item.
Proof.
  unfold Index.processItem, indexType. intros item q H.
  inv_bind H as question Hq. inv_bind H as itemmetadata Hmd.
  apply get_Ok in Hmd as [_ ->]. inv_bind H as sc Hsc.
  inv_bind H as profileField Hpf.
  apply find_profile in Hpf. rewrite firstLabeled_index in Hpf.
  fold (metadataFields item) in Hpf.
  destruct (firstLabeled "cc_profile" (metadataFields item)) as [f|] eqn:Ef.
  - subst profileField.
    apply firstLabeled_mapping in Ef as ([ps ->] & Hl & _).
    simpl truthy in H. cbv iota in H.
    destruct (seq_str (prop (JObj ps) "fieldentry") "cc.multiple_choice.v0p1").
    + inv_bind H as presentation Hp. inv_bind H as choices Hch.
      apply multipleChoice_keeps in H as [Ht _]. exact Ht.
    + destruct (seq_str (prop (JObj ps) "fieldentry") "cc.fib.v0p1").
      * inv_bind H as correct Hc. now injection H as <-.
      * apply essayOrUnknown_Ok in H as [[He (Ht & _)]|(He & Ht & _)];
          unfold isEssay in He; simpl isArray in He; cbv iota in He;
          rewrite !oget_prop, Hl in He;
          change (seq_str (JStr "cc_profile") "cc_profile") with true in He;
          cbn [andb] in He; injection He as He;
          cbn [prop] in He |- *; rewrite He; exact Ht.
  - subst profileField. simpl in H.
    apply essayOrUnknown_Ok in H as [[He _]|(_ & Ht & _)]; [discriminate He|exact Ht].
Qed.

(** In [server.js] the structure of the presentation decides first: a
    choice rendering makes the question multiple choice, otherwise a
    free-text response makes it fill-in-the-blank, and only then the essay
    profile is looked for; anything else is Unknown. *)
Theorem server_decision_order :
  forall item q,
    Server.processItem item = Ok q -> responseType q = serverType item.
Proof. exact server_type. Qed.

Lemma server_decision_order_witness :
  exists q, Server.processItem (Sample.essay Sample.freeText) = Ok q
            /\ responseType q = FillInBlank.
Proof.
  eexists. split; [reflexivity|].
  exact (server_decision_order (Sample.essay Sample.freeText) _ eq_refl).
Defined.

(** ** When the item callback returns *)

Section Acceptance.

Lemma decides_bind {A B} (c : result A) (k : A -> result B) (b1 b2 : bool) :
  decides c b1 ->
  (forall a, c = Ok a -> decides (k a) b2) ->
  decides (bind c k) (b1 && b2).
Proof.
  destruct c as [a|e]; simpl; intros H1 H2.
  - subst b1. exact (H2 a eq_refl).
  - destruct H1 as [-> ->]. split; reflexivity.
Qed.

Lemma decides_Ok {A} (r : result A) (b : bool) :
  decides r b -> ((exists a, r = Ok a) <-> b = true).
Proof.
  destruct r as [a|e]; simpl.
  - intros ->. split; eauto.
  - intros [-> _]. split; [intros [a H]; discriminate H|discriminate].
Qed.

Lemma decides_get (v : JSValue) (k : string) :
  decides (get v k) (negb (isNullish v)).
Proof. unfold get. destruct (isNullish v); simpl; auto. Qed.

Lemma decides_stripHtmlTags (v : JSValue) : decides (stripHtmlTags v) (textual v).
Proof.
  destruct v as [| |s|ps|l]; simpl; auto.
  unfold stripHtmlTags. simpl. destruct (String.eqb s ""); reflexivity.
Qed.

Lemma decides_materialText (v : JSValue) : decides (materialText v) (textual v).
Proof.
  unfold materialText.
  pose proof (decides_stripHtmlTags v) as H.
  destruct (stripHtmlTags v); exact H.
Qed.

Lemma decides_pushChoice (choice : JSValue) :
  decides (pushChoice choice) (choiceReadable choice).
Proof.
  unfold pushChoice, choiceReadable.
  apply decides_bind; [apply decides_get|].
  intros ident Hi. apply get_Ok in Hi as [Hc _].
  rewrite (get_present _ _ Hc). cbn [bind].
  pose proof (decides_materialText
                (opath (prop choice "material") ["mattext"; "#"])) as H.
  destruct (materialText (opath (prop choice "material") ["mattext"; "#"]));
    exact H.
Qed.

Lemma decides_choices (choices : list JSValue) :
  decides (mapM pushChoice choices) (forallb choiceReadable choices).
Proof.
  induction choices as [|c r IH]; simpl; [reflexivity|].
  apply decides_bind; [apply decides_pushChoice|].
  intros o _. destruct (mapM pushChoice r); exact IH.
Qed.

Lemma decides_setting {A} (conds : list JSValue) (found : string -> A) (none : A) :
  decides (correctResponse <-
             find (fun cond => setvar <- get cond "setvar" ;; Ok (truthy setvar))
                  conds ;;
           if truthy correctResponse then
             correctIdent <-
               callTrim (orElse (opath (prop correctResponse "conditionvar")
                                       ["varequal"; "#"]) (JStr "")) ;;
             Ok (found correctIdent)
           else Ok none)
          (settingReadable conds).
Proof.
  induction conds as [|c r IH]; simpl; [reflexivity|].
  unfold get at 1. destruct (isNullish c) eqn:Ec; simpl; [auto|].
  destruct (truthy (prop c "setvar")) eqn:Es; simpl; [|exact IH].
  assert (Hc : truthy c = true) by (destruct c; try discriminate Es; reflexivity).
  rewrite Hc.
  match goal with
  | |- decides (bind (callTrim ?v) _) _ => destruct v; simpl; auto
  end.
Qed.

Lemma decides_multipleChoice (item : JSValue) (choices : list JSValue)
    (q : Question) :
  isNullish item = false ->
  decides (multipleChoice item choices q)
          (forallb choiceReadable choices
           && conditionsReadable (prop (prop item "resprocessing") "respcondition")).
Proof.
  intros Hitem. unfold multipleChoice.
  apply decides_bind; [apply decides_choices|].
  intros opts _. rewrite (get_present _ _ Hitem). cbn [bind].
  rewrite oget_prop. unfold ocallFind, conditionsReadable.
  destruct (prop (prop item "resprocessing") "respcondition") as [| |s|ps|l];
    simpl; auto.
  apply (decides_setting l
           (fun correctIdent =>
              set_correctAnswer (set_options q (options q ++ opts))
                (answer (JStr correctIdent)
                   (choiceText (findOption (JStr correctIdent)
                                  (options (set_options q (options q ++ opts)))))))
           (set_correctAnswer (set_options q (options q ++ opts))
              (answer (JStr "N/A") (JStr "N/A")))).
Qed.

Lemma decides_essaySearch (fields : list JSValue) :
  decides (find (fun f => label <- get f "fieldlabel" ;;
                          if seq_str label "cc_profile"
                          then entry <- get f "fieldentry" ;;
                               Ok (seq_str entry "cc.essay.v0p1")
                          else Ok false) fields)
          (profileReadable fields).
Proof.
  induction fields as [|f r IH]; simpl; [reflexivity|].
  unfold get at 1. destruct (isNullish f) eqn:Ef; simpl; [auto|].
  unfold hasEntry.
  destruct (seq_str (prop f "fieldlabel") "cc_profile"); simpl; [|exact IH].
  rewrite (get_present _ _ Ef). simpl.
  destruct (seq_str (prop f "fieldentry") "cc.essay.v0p1"); [reflexivity|exact IH].
Qed.

Lemma decides_essayOrUnknown (field : JSValue) (q : Question) :
  decides (essayOrUnknown field q) (essayReadable field).
Proof.
  unfold essayOrUnknown, isEssay, essayReadable.
  destruct field as [| |s|ps|l]; cbn [isArray bind].
  1-4: match goal with
       | |- decides (if ?c then _ else _) true => destruct c; reflexivity
       end.
  unfold callFind. pose proof (decides_essaySearch l) as H.
  match goal with
  | |- decides (bind (bind ?f _) _) _ => destruct f as [found|e]
  end; cbn [bind]; [|exact H].
  destruct (truthy found); exact H.
Qed.

Lemma decides_newQuestion (item initial : JSValue) :
  decides (newQuestion item initial)
          (negb (isNullish item)
           && textual (opath (prop item "presentation") ["material"; "mattext"; "#"])).
Proof.
  unfold newQuestion.
  apply decides_bind; [apply decides_get|].
  intros ident Hi. apply get_Ok in Hi as [Hitem _].
  rewrite (get_present _ _ Hitem). cbn [bind].
  pose proof (decides_materialText
                (opath (prop item "presentation") ["material"; "mattext"; "#"])) as H.
  destruct (materialText (opath (prop item "presentation")
                                ["material"; "mattext"; "#"])); exact H.
Qed.

(** The score resolution itself never throws on an item that is there. *)
Lemma resolveScore_eq (item : JSValue) (fields : list JSValue) :
  isNullish item = false ->
  firstLabeled "cc_weighting" fields
  = firstLabeled "cc_weighting" (metadataFields item) ->
  resolveScore item fields = Ok (resolvedScore item).
Proof.
  intros Hitem Hfields. unfold resolveScore, resolvedScore.
  rewrite find_weighting, Hfields. simpl.
  destruct (firstLabeled "cc_weighting" (metadataFields item)) as [f|] eqn:Ef.
  - apply firstLabeled_mapping in Ef as ([ps ->] & _ & _). reflexivity.
  - simpl. rewrite (get_present _ _ Hitem). simpl.
    unfold firstCondition.
    destruct (prop item "resprocessing") as [| |t|ps|l]; simpl; try reflexivity.
    + destruct (String.eqb t ""); reflexivity.
    + destruct (assoc "respcondition" ps) as [| |t|qs|l]; simpl; try reflexivity.
      * destruct (String.eqb t ""); reflexivity.
      * rewrite oget_prop. simpl.
        destruct (truthy (assoc "setvar" qs)) eqn:Et; [|reflexivity].
        rewrite (get_present _ _ (truthy_present _ Et)). reflexivity.
      * destruct l as [|c l]; simpl; [reflexivity|].
        rewrite oget_prop.
        destruct (truthy (prop c "setvar")) eqn:Et; [|reflexivity].
        rewrite (get_present _ _ (truthy_present _ Et)). reflexivity.
Qed.

Lemma decides_server (item : JSValue) :
  decides (Server.processItem item) (serverAccepts item).
Proof.
  unfold Server.processItem, serverAccepts, hasChoiceRendering, hasFreeText.
  apply decides_bind; [apply decides_newQuestion|].
  intros question Hq. apply newQuestion_Ok in Hq as (Hitem & _).
  rewrite (get_present _ _ Hitem). cbn [bind].
  rewrite (resolveScore_eq _ _ Hitem (firstLabeled_server _ _)). cbn [bind].
  rewrite (get_present _ _ Hitem). cbn [bind].
  destruct (truthy (opath (prop item "presentation") ["response_lid"; "render_choice"])).
  - exact (decides_multipleChoice item _ _ Hitem).
  - change (opath (prop item "presentation") ["response_str"])
      with (oget (prop item "presentation") "response_str").
    destruct (truthy (oget (prop item "presentation") "response_str")).
    + unfold fillInBlankAnswer. rewrite (get_present _ _ Hitem). reflexivity.
    + apply decides_essayOrUnknown.
Qed.

Lemma server_score (item : JSValue) (q : Question) :
  Server.processItem item = Ok q ->
  responseType q = serverType item
  /\ score q = if String.eqb (serverType item) Essay
               then JStr "Manual grading" else resolvedScore item.
Proof.
  intros H. pose proof (server_type _ _ H) as Ht.
  split; [exact Ht|]. rewrite <- Ht.
  destruct (server_resolved _ _ H) as [(He & _ & Hs)|[[Hm|[Hm|Hm]] Hs]];
    [rewrite He|rewrite Hm..]; assumption.
Qed.

Lemma index_score (item : JSValue) (q : Question) :
  Index.processItem item = Ok q ->
  responseType q = indexType item
  /\ score q = if String.eqb (indexType item) Essay
               then JStr "Manual grading" else resolvedScore item.
Proof.
  intros H. pose proof (index_type _ _ H) as Ht.
  split; [exact Ht|]. rewrite <- Ht.
  destruct (index_resolved _ _ H) as [(He & _ & Hs)|[[Hm|[Hm|Hm]] Hs]];
    [rewrite He|rewrite Hm..]; assumption.
Qed.

End Acceptance.

(** C2: on every item that is there, the score-resolution step of
    [server.js] and of [api/index.js] returns the resolved score - the
    entry of the first field labeled [cc_weighting] of the list-normalized
    metadata field list when there is one, otherwise the [val] of the
    first response-condition's set-variable when it has one, otherwise
    ["N/A"] - and never throws.  [server.js] produces a question exactly
    for the items its callback can read; every question produced has the
    response type the variant decides for the item and, whatever that type
    is, the resolved score, except that an essay has ["Manual grading"]. *)
Theorem score_resolution :
  forall item,
    isNullish item = false ->
    let field := opath (prop item "itemmetadata") ["qtimetadata"; "qtimetadatafield"] in
    resolveScore item (if isArray field then elemsOf field else [field])
    = Ok (resolvedScore item)
    /\ resolveScore item (if isArray field then elemsOf field
                          else singletonIfTruthy field)
       = Ok (resolvedScore item)
    /\ ((exists q, Server.processItem item = Ok q) <-> serverAccepts item = true)
    /\ (forall q, Server.processItem item = Ok q ->
          responseType q = serverType item
          /\ score q = if String.eqb (serverType item) Essay
                       then JStr "Manual grading" else resolvedScore item)
    /\ (forall q, Index.processItem item = Ok q ->
          responseType q = indexType item
          /\ score q = if String.eqb (indexType item) Essay
                       then JStr "Manual grading" else resolvedScore item).
Proof.
  intros item Hitem. cbv zeta.
  split; [exact (resolveScore_eq _ _ Hitem (firstLabeled_server _ _))|].
  split; [exact (resolveScore_eq _ _ Hitem (firstLabeled_index _ _))|].
  split; [exact (decides_Ok _ _ (decides_server item))|].
  split; [exact (server_score item)|exact (index_score item)].
Qed.

Lemma score_resolution_witness :
  (exists q, Server.processItem (Sample.capital (JArr [Sample.condition "A" "1"])) = Ok q
             /\ responseType q = MultipleChoice /\ score q = JStr "1")
  /\ (exists q, Server.processItem (Sample.essay Sample.freeText) = Ok q
                /\ responseType q = FillInBlank /\ score q = JStr "10")
  /\ (exists q, Server.processItem (Sample.essay []) = Ok q
                /\ responseType q = Essay /\ score q = JStr "Manual grading")
  /\ (exists q, Server.processItem Sample.bare = Ok q
                /\ responseType q = Unknown /\ score q = JStr "N/A")
  /\ (exists q, Index.processItem (Sample.blank (JArr [Sample.condition "Paris" "2"]))
                = Ok q
                /\ responseType q = FillInBlank /\ score q = JStr "2")
  /\ resolveScore (Sample.capital (Sample.condition "A" "1"))
                  [Sample.field "cc_profile" "cc.multiple_choice.v0p1"]
     = Ok (JStr "1")
  /\ ~ (exists q, Server.processItem (Sample.capital (Sample.condition "A" "1")) = Ok q).
Proof.
  split; [|split; [|split; [|split; [|split; [|split]]]]].
  - destruct (proj2 (proj1 (proj2 (proj2 (score_resolution
                (Sample.capital (JArr [Sample.condition "A" "1"])) eq_refl))))
                eq_refl) as [q Hq].
    exists q. split; [exact Hq|].
    exact (proj1 (proj2 (proj2 (proj2 (score_resolution
             (Sample.capital (JArr [Sample.condition "A" "1"])) eq_refl)))) q Hq).
  - eexists. split; [reflexivity|].
    exact (proj1 (proj2 (proj2 (proj2 (score_resolution
             (Sample.essay Sample.freeText) eq_refl)))) _ eq_refl).
  - eexists. split; [reflexivity|].
    exact (proj1 (proj2 (proj2 (proj2 (score_resolution
             (Sample.essay []) eq_refl)))) _ eq_refl).
  - eexists. split; [reflexivity|].
    exact (proj1 (proj2 (proj2 (proj2 (score_resolution Sample.bare eq_refl))))
             _ eq_refl).
  - eexists. split; [reflexivity|].
    exact (proj2 (proj2 (proj2 (proj2 (score_resolution
             (Sample.blank (JArr [Sample.condition "Paris" "2"])) eq_refl))))
             _ eq_refl).
  - exact (proj1 (score_resolution (Sample.capital (Sample.condition "A" "1"))
                    eq_refl)).
  - intros H.
    apply (proj1 (proj1 (proj2 (proj2 (score_resolution
             (Sample.capital (Sample.condition "A" "1")) eq_refl))))) in H.
    discriminate H.
Defined.

(** ** The fields of a produced question *)

Section QuestionFields.

Lemma stripHtmlTags_sanitized (v : JSValue) (t : string) :
  stripHtmlTags v = Ok t -> occurs lt_char t = false /\ trim t = t.
Proof.
  unfold stripHtmlTags. destruct (negb (truthy v)).
  - intros H. injection H as <-. split; reflexivity.
  - destruct v; try discriminate. intros H. injection H as <-.
    split; [apply occurs_trim, occurs_replaceTags|apply trim_idem].
Qed.

Lemma materialText_sanitized (v x : JSValue) :
  materialText v = Ok x -> sanitized x.
Proof.
  unfold materialText. intros H. inv_bind H as t Ht. injection H as <-.
  exists t. split; [reflexivity|exact (stripHtmlTags_sanitized _ _ Ht)].
Qed.

Lemma newQuestion_header (item initial : JSValue) (q : Question) :
  newQuestion item initial = Ok q ->
  itemIdentifier q = orElse (prop item "ident") (JStr "N/A")
  /\ sanitized (questionText q).
Proof.
  unfold newQuestion. intros H.
  inv_bind H as ident Hi. apply get_Ok in Hi as [_ ->].
  inv_bind H as presentation Hp. inv_bind H as qtext Hq.
  injection H as <-. simpl. split; [reflexivity|].
  exact (materialText_sanitized _ _ Hq).
Qed.

Lemma pushChoice_spec (choice : JSValue) (o : Choice) :
  pushChoice choice = Ok o -> choiceOf choice o.
Proof.
  unfold pushChoice, materialText, choiceOf. intros H.
  inv_bind H as ident Hi. apply get_Ok in Hi as [_ ->].
  inv_bind H as material Hm. apply get_Ok in Hm as [_ ->].
  inv_bind H as txt Ht. inv_bind Ht as t Hs. injection Ht as <-.
  injection H as <-. simpl. split; [reflexivity|]. exists t. auto.
Qed.

Lemma choiceOf_sanitized (choice : JSValue) (o : Choice) :
  choiceOf choice o ->
  sanitized (text o) /\ isNullish (identifier o) = false.
Proof.
  intros (Hi & t & Hs & Ht). split.
  - exists t. split; [exact Ht|exact (stripHtmlTags_sanitized _ _ Hs)].
  - rewrite Hi. unfold orElse.
    destruct (isNullish (prop choice "ident")) eqn:E; [reflexivity|exact E].
Qed.

Lemma multipleChoice_frame (item : JSValue) (choices : list JSValue)
    (q q' : Question) :
  multipleChoice item choices q = Ok q' ->
  itemIdentifier q' = itemIdentifier q
  /\ questionText q' = questionText q
  /\ exists opts, mapM pushChoice choices = Ok opts
                  /\ options q' = (options q ++ opts)%list.
Proof.
  unfold multipleChoice. intros H.
  inv_bind H as opts Hopts. inv_bind H as resprocessing Hrp.
  inv_bind H as correctResponse Hcr.
  destruct (truthy correctResponse).
  - inv_bind H as correctIdent Hci. injection H as <-. simpl. eauto.
  - injection H as <-. simpl. eauto.
Qed.

Lemma essayOrUnknown_frame (profileField : JSValue) (q q' : Question) :
  essayOrUnknown profileField q = Ok q' ->
  itemIdentifier q' = itemIdentifier q
  /\ questionText q' = questionText q
  /\ options q' = options q.
Proof.
  unfold essayOrUnknown. intros H. inv_bind H as essay He.
  destruct essay; injection H as <-; simpl; auto.
Qed.

Lemma server_built (item : JSValue) (q : Question) :
  Server.processItem item = Ok q -> built item q.
Proof.
  unfold Server.processItem, built. intros H.
  inv_bind H as question Hq.
  pose proof (newQuestion_Ok _ _ _ Hq) as (_ & _ & Ho & _).
  inv_bind H as itemmetadata Hmd. inv_bind H as sc Hsc.
  inv_bind H as presentation Hp.
  exists (JStr "N/A"), question.
  destruct (truthy (opath presentation ["response_lid"; "render_choice"])).
  - apply multipleChoice_frame in H as (Hi & Ht & opts & Hm & Hopts).
    simpl in Hi, Ht, Hopts. rewrite Ho in Hopts. simpl in Hopts.
    eexists. rewrite Hopts. eauto.
  - exists []. destruct (truthy (oget presentation "response_str")).
    + inv_bind H as correct Hc. injection H as <-. simpl. rewrite Ho. auto.
    + apply essayOrUnknown_frame in H as (Hi & Ht & Hopts).
      simpl in Hi, Ht, Hopts. rewrite Hopts, Ho. auto.
Qed.

Lemma index_built (item : JSValue) (q : Question) :
  Index.processItem item = Ok q -> built item q.
Proof.
  unfold Index.processItem, built. intros H.
  inv_bind H as question Hq.
  pose proof (newQuestion_Ok _ _ _ Hq) as (_ & _ & Ho & _).
  inv_bind H as itemmetadata Hmd. inv_bind H as sc Hsc.
  inv_bind H as profileField Hpf.
  exists (answer (JStr "N/A") (JStr "N/A")), question.
  match type of H with
  | (if ?c then _ else _) = _ => destruct c
  end.
  - inv_bind H as presentation Hp. inv_bind H as choices Hch.
    apply multipleChoice_frame in H as (Hi & Ht & opts & Hm & Hopts).
    simpl in Hi, Ht, Hopts. rewrite Ho in Hopts. simpl in Hopts.
    exists choices. rewrite Hopts. auto.
  - exists [].
    match type of H with
    | (if ?c then _ else _) = _ => destruct c
    end.
    + inv_bind H as correct Hc. injection H as <-. simpl. rewrite Ho. auto.
    + apply essayOrUnknown_frame in H as (Hi & Ht & Hopts).
      simpl in Hi, Ht, Hopts. rewrite Hopts, Ho. auto.
Qed.

Lemma upload_built (item : JSValue) (q : Question) :
  Upload.processItem item = Ok q -> built item q.
Proof.
  unfold Upload.processItem, built. intros H.
  inv_bind H as question Hq.
  pose proof (newQuestion_Ok _ _ _ Hq) as (_ & _ & Ho & _).
  inv_bind H as presentation Hp.
  exists (JStr "N/A"), question.
  destruct (truthy (opath presentation ["response_lid"; "render_choice"])).
  - inv_bind H as opts Hopts. inv_bind H as resprocessing Hrp.
    inv_bind H as correctResponse Hcr. simpl in H. rewrite Ho in H. simpl in H.
    eexists. destruct (truthy correctResponse); injection H as <-; simpl; eauto.
  - injection H as <-. exists []. rewrite Ho. auto.
Qed.

End QuestionFields.

(** ** The multiple-choice branch *)

Section MultipleChoiceBranch.

Lemma labelList_rendering (item : JSValue) (labels : list JSValue) :
  labelList item labels ->
  truthy (opath (prop item "presentation") ["response_lid"; "render_choice"]) = true
  /\ prop (prop (prop (prop item "presentation") "response_lid") "render_choice")
          "response_label" = JArr labels.
Proof.
  unfold labelList, opath. simpl. rewrite !oget_prop.
  destruct (prop (prop (prop item "presentation") "response_lid") "render_choice");
    simpl; try discriminate.
  intros H. split; [reflexivity|exact H].
Qed.

(** A question that came out as multiple choice went through the
    multiple-choice branch, over the label list when there is one. *)
Lemma server_mc_branch (item : JSValue) (q : Question) :
  Server.processItem item = Ok q -> responseType q = MultipleChoice ->
  exists choices q1,
    options q1 = [] /\ multipleChoice item choices q1 = Ok q
    /\ forall labels, labelList item labels -> choices = labels.
Proof.
  unfold Server.processItem. intros H HT.
  inv_bind H as question Hq.
  pose proof (newQuestion_Ok _ _ _ Hq) as (_ & _ & Ho & _).
  inv_bind H as itemmetadata Hmd. inv_bind H as sc Hsc.
  inv_bind H as presentation Hp. apply get_Ok in Hp as [_ ->].
  destruct (truthy (opath (prop item "presentation") ["response_lid"; "render_choice"])).
  - do 2 eexists. split; [|split; [exact H|]]; [exact Ho|].
    intros labels Hl. apply labelList_rendering in Hl as [_ ->]. reflexivity.
  - exfalso. destruct (truthy (oget (prop item "presentation") "response_str")).
    + inv_bind H as correct Hc. injection H as <-. discriminate HT.
    + apply essayOrUnknown_Ok in H as [[_ (Ht & _)]|(_ & Ht & _)];
        rewrite Ht in HT; discriminate HT.
Qed.

Lemma index_mc_branch (item : JSValue) (q : Question) :
  Index.processItem item = Ok q -> responseType q = MultipleChoice ->
  exists choices q1,
    options q1 = [] /\ multipleChoice item choices q1 = Ok q
    /\ forall labels, labelList item labels -> choices = labels.
Proof.
  unfold Index.processItem. intros H HT.
  inv_bind H as question Hq.
  pose proof (newQuestion_Ok _ _ _ Hq) as (_ & _ & Ho & _).
  inv_bind H as itemmetadata Hmd. inv_bind H as sc Hsc.
  inv_bind H as profileField Hpf.
  match type of H with
  | (if ?c then _ else _) = _ => destruct c
  end.
  - inv_bind H as presentation Hp. apply get_Ok in Hp as [_ ->].
    inv_bind H as choices Hch.
    exists choices. eexists. split; [|split; [exact H|]]; [exact Ho|].
    intros labels Hl. unfold labelList in Hl. rewrite Hl in Hch.
    simpl in Hch. now injection Hch.
  - exfalso.
    match type of H with
    | (if ?c then _ else _) = _ => destruct c
    end.
    + inv_bind H as correct Hc. injection H as <-. discriminate HT.
    + apply essayOrUnknown_Ok in H as [[_ (Ht & _)]|(_ & Ht & _)];
        rewrite Ht in HT; discriminate HT.
Qed.

Lemma upload_mc_choices (item : JSValue) (q : Question) :
  Upload.processItem item = Ok q -> responseType q = MultipleChoice ->
  exists choices,
    mapM pushChoice choices = Ok (options q)
    /\ forall labels, labelList item labels -> choices = labels.
Proof.
  unfold Upload.processItem. intros H HT.
  inv_bind H as question Hq.
  pose proof (newQuestion_Ok _ _ _ Hq) as (_ & Hty & Ho & _).
  inv_bind H as presentation Hp. apply get_Ok in Hp as [_ ->].
  destruct (truthy (opath (prop item "presentation") ["response_lid"; "render_choice"])).
  - inv_bind H as opts Hopts. inv_bind H as resprocessing Hrp.
    inv_bind H as correctResponse Hcr. simpl in H. rewrite Ho in H. simpl in H.
    eexists. split.
    + destruct (truthy correctResponse); injection H as <-; exact Hopts.
    + intros labels Hl. apply labelList_rendering in Hl as [_ ->]. reflexivity.
  - injection H as <-. rewrite Hty in HT. discriminate HT.
Qed.

Lemma mc_choices (item : JSValue) (q : Question) :
  Server.processItem item = Ok q \/ Index.processItem item = Ok q
  \/ Upload.processItem item = Ok q ->
  responseType q = MultipleChoice ->
  exists choices,
    mapM pushChoice choices = Ok (options q)
    /\ forall labels, labelList item labels -> choices = labels.
Proof.
  intros [H|[H|H]] HT.
  - destruct (server_mc_branch _ _ H HT) as (choices & q1 & Ho & Hm & Hl).
    apply multipleChoice_frame in Hm as (_ & _ & opts & Hopts & E).
    rewrite Ho in E. simpl in E. rewrite E. eauto.
  - destruct (index_mc_branch _ _ H HT) as (choices & q1 & Ho & Hm & Hl).
    apply multipleChoice_frame in Hm as (_ & _ & opts & Hopts & E).
    rewrite Ho in E. simpl in E. rewrite E. eauto.
  - exact (upload_mc_choices _ _ H HT).
Qed.

End MultipleChoiceBranch.

Section OtherBranches.

Lemma server_other_branches (item : JSValue) (q : Question) :
  Server.processItem item = Ok q ->
  (responseType q = MultipleChoice)
  \/ (responseType q = FillInBlank /\ options q = []
      /\ fillInBlankAnswer item = Ok (correctAnswer q))
  \/ (responseType q = Essay /\ options q = [])
  \/ (responseType q = Unknown /\ options q = [] /\ correctAnswer q = JStr "N/A").
Proof.
  unfold Server.processItem. intros H.
  inv_bind H as question Hq.
  pose proof (newQuestion_Ok _ _ _ Hq) as (_ & _ & Ho & Ha & _).
  inv_bind H as itemmetadata Hmd. inv_bind H as sc Hsc.
  inv_bind H as presentation Hp.
  destruct (truthy (opath presentation ["response_lid"; "render_choice"])).
  - left. apply multipleChoice_keeps in H as [Ht _]. exact Ht.
  - right. destruct (truthy (oget presentation "response_str")).
    + left. inv_bind H as correct Hc. injection H as <-. simpl. auto.
    + right. pose proof (essayOrUnknown_frame _ _ _ H) as (_ & _ & Hopts).
      simpl in Hopts. rewrite Ho in Hopts.
      apply essayOrUnknown_Ok in H as [[_ (Ht & _)]|(_ & Ht & _ & Hc)].
      * left. auto.
      * right. simpl in Hc. rewrite Ha in Hc. auto.
Qed.

Lemma index_other_branches (item : JSValue) (q : Question) :
  Index.processItem item = Ok q ->
  (responseType q = MultipleChoice)
  \/ (responseType q = FillInBlank /\ options q = []
      /\ fillInBlankAnswer item = Ok (correctAnswer q))
  \/ (responseType q = Essay /\ options q = [])
  \/ (responseType q = Unknown /\ options q = []
      /\ correctAnswer q = answer (JStr "N/A") (JStr "N/A")).
Proof.
  unfold Index.processItem. intros H.
  inv_bind H as question Hq.
  pose proof (newQuestion_Ok _ _ _ Hq) as (_ & _ & Ho & Ha & _).
  inv_bind H as itemmetadata Hmd. inv_bind H as sc Hsc.
  inv_bind H as profileField Hpf.
  match type of H with
  | (if ?c then _ else _) = _ => destruct c
  end.
  - left. inv_bind H as presentation Hp. inv_bind H as choices Hch.
    apply multipleChoice_keeps in H as [Ht _]. exact Ht.
  - right.
    match type of H with
    | (if ?c then _ else _) = _ => destruct c
    end.
    + left. inv_bind H as correct Hc. injection H as <-. simpl. auto.
    + right. pose proof (essayOrUnknown_frame _ _ _ H) as (_ & _ & Hopts).
      simpl in Hopts. rewrite Ho in Hopts.
      apply essayOrUnknown_Ok in H as [[_ (Ht & _)]|(_ & Ht & _ & Hc)].
      * left. auto.
      * right. simpl in Hc. rewrite Ha in Hc. auto.
Qed.

Lemma upload_other_branch (item : JSValue) (q : Question) :
  Upload.processItem item = Ok q ->
  responseType q = MultipleChoice
  \/ (responseType q = "N/A" /\ options q = []
      /\ correctAnswer q = JStr "N/A" /\ score q = JStr "N/A").
Proof.
  unfold Upload.processItem. intros H.
  inv_bind H as question Hq.
  pose proof (newQuestion_Ok _ _ _ Hq) as (_ & Hty & Ho & Ha & Hs).
  inv_bind H as presentation Hp.
  destruct (truthy (opath presentation ["response_lid"; "render_choice"])).
  - left. inv_bind H as opts Hopts. inv_bind H as resprocessing Hrp.
    inv_bind H as correctResponse Hcr.
    destruct (truthy correctResponse); injection H as <-; reflexivity.
  - right. injection H as <-. auto.
Qed.

End OtherBranches.

(** In the three variants a produced question carries the item's
    identifier, ["N/A"] when the item has none, and a question text that
    is a string, trimmed and free of [<]. *)
Theorem question_header :
  forall item q,
    Server.processItem item = Ok q \/ Index.processItem item = Ok q
    \/ Upload.processItem item = Ok q ->
    itemIdentifier q = orElse (prop item "ident") (JStr "N/A")
    /\ sanitized (questionText q).
Proof.
  intros item q H.
  assert (B : built item q).
  { destruct H as [H|[H|H]];
      [now apply server_built|now apply index_built|now apply upload_built]. }
  destruct B as (initial & q0 & choices & Hq & Hi & Ht & _).
  rewrite Hi, Ht. exact (newQuestion_header _ _ _ Hq).
Qed.

Lemma question_header_witness :
  exists q, Upload.processItem Sample.unprofiled = Ok q
            /\ itemIdentifier q = JStr "q6"
            /\ sanitized (questionText q).
Proof.
  eexists. split; [reflexivity|].
  exact (question_header Sample.unprofiled _ (or_intror (or_intror eq_refl))).
Defined.

(** In the three variants every option of a produced question has an
    identifier that is not nullish and a text that is a string, trimmed and
    free of [<]. *)
Theorem options_sanitized :
  forall item q,
    Server.processItem item = Ok q \/ Index.processItem item = Ok q
    \/ Upload.processItem item = Ok q ->
    Forall (fun o => sanitized (text o) /\ isNullish (identifier o) = false)
           (options q).
Proof.
  intros item q H.
  assert (B : built item q).
  { destruct H as [H|[H|H]];
      [now apply server_built|now apply index_built|now apply upload_built]. }
  destruct B as (initial & q0 & choices & _ & _ & _ & Hm).
  apply mapM_Forall2 in Hm.
  induction Hm as [|c o cs os Hc _ IH]; constructor; [|exact IH].
  exact (choiceOf_sanitized _ _ (pushChoice_spec _ _ Hc)).
Qed.

Lemma options_sanitized_witness :
  exists q, Server.processItem Sample.unprofiled = Ok q
            /\ Forall (fun o => sanitized (text o)
                                /\ isNullish (identifier o) = false)
                      (options q).
Proof.
  eexists. split; [reflexivity|].
  exact (options_sanitized Sample.unprofiled _ (or_introl eq_refl)).
Defined.

(** In the three variants a multiple-choice question whose choice labels
    are a list has exactly one option per label, in the order of the
    labels, duplicates of an identifier included; every other question has
    no options. *)
Theorem options_follow_labels :
  forall item q,
    Server.processItem item = Ok q \/ Index.processItem item = Ok q
    \/ Upload.processItem item = Ok q ->
    (responseType q = MultipleChoice ->
     forall labels, labelList item labels -> Forall2 choiceOf labels (options q))
    /\ (responseType q <> MultipleChoice -> options q = []).
Proof.
  intros item q H. split.
  - intros HT labels Hl.
    destruct (mc_choices _ _ H HT) as (choices & Hm & Hc).
    rewrite (Hc _ Hl) in Hm. apply mapM_Forall2 in Hm.
    eapply Forall2_impl; [|exact Hm].
    intros c o Hco. exact (pushChoice_spec _ _ Hco).
  - intros HT. destruct H as [H|[H|H]].
    + apply server_other_branches in H
        as [Hm|[(_ & Ho & _)|[(_ & Ho)|(_ & Ho & _)]]];
        [now elim HT|exact Ho..].
    + apply index_other_branches in H
        as [Hm|[(_ & Ho & _)|[(_ & Ho)|(_ & Ho & _)]]];
        [now elim HT|exact Ho..].
    + apply upload_other_branch in H as [Hm|(_ & Ho & _)];
        [now elim HT|exact Ho].
Qed.

Lemma options_follow_labels_witness :
  exists q, Server.processItem Sample.unprofiled = Ok q
            /\ Forall2 choiceOf
                 [Sample.label "A" "<i>Paris</i>"; Sample.label "A" "Rome"]
                 (options q)
            /\ exists q', Index.processItem Sample.unprofiled = Ok q'
                          /\ options q' = [].
Proof.
  eexists. split; [reflexivity|]. split.
  - apply (proj1 (options_follow_labels Sample.unprofiled _ (or_introl eq_refl)));
      reflexivity.
  - eexists. split; [reflexivity|].
    apply (proj2 (options_follow_labels Sample.unprofiled _
                    (or_intror (or_introl eq_refl)))).
    discriminate.
Defined.

(** ** Correct answers *)

Section Answers.

Lemma multipleChoice_receiver (item : JSValue) (choices : list JSValue)
    (q q' : Question) :
  multipleChoice item choices q = Ok q' ->
  let respcondition := prop (prop item "resprocessing") "respcondition" in
  (isNullish respcondition = true
   /\ correctAnswer q' = answer (JStr "N/A") (JStr "N/A"))
  \/ isArray respcondition = true.
Proof.
  unfold multipleChoice. intros H.
  inv_bind H as opts Hopts.
  inv_bind H as resprocessing Hrp. apply get_Ok in Hrp as [_ ->].
  rewrite oget_prop in H. unfold ocallFind in H. cbv zeta.
  destruct (prop (prop item "resprocessing") "respcondition") as [| |s|ps|l];
    simpl in H; try discriminate H.
  - left. injection H as <-. auto.
  - left. injection H as <-. auto.
  - right. reflexivity.
Qed.

Lemma findOption_first (s : string) (opts : list Choice) :
  match findOption (JStr s) opts with
  | Some o =>
      exists before after,
        opts = (before ++ o :: after)%list
        /\ identifier o = JStr s
        /\ Forall (fun x => identifier x <> JStr s) before
  | None => Forall (fun x => identifier x <> JStr s) opts
  end.
Proof.
  induction opts as [|o r IH]; simpl; [constructor|].
  destruct (seq_str (identifier o) s) eqn:E.
  - exists [], r. split; [reflexivity|].
    split; [exact (seq_str_eq _ _ E)|constructor].
  - assert (N : identifier o <> JStr s).
    { intros C. rewrite C in E. simpl in E. rewrite String.eqb_refl in E.
      discriminate E. }
    destruct (findOption (JStr s) r) as [o'|].
    + destruct IH as (before & after & -> & Hi & Hb).
      exists (o :: before), after. split; [reflexivity|].
      split; [exact Hi|constructor; assumption].
    + constructor; assumption.
Qed.

End Answers.

(** [server.js] and [api/index.js]: a multiple-choice question is produced
    only when the response-conditions are absent or a list; a single
    response-condition, which the parser hands over as a mapping or a text,
    never yields one. *)
Theorem multiple_choice_needs_list :
  forall item q,
    Server.processItem item = Ok q \/ Index.processItem item = Ok q ->
    responseType q = MultipleChoice ->
    let respcondition := prop (prop item "resprocessing") "respcondition" in
    (isNullish respcondition = true
     /\ correctAnswer q = answer (JStr "N/A") (JStr "N/A"))
    \/ isArray respcondition = true.
Proof.
  intros item q H HT.
  assert (B : exists choices q1, multipleChoice item choices q1 = Ok q).
  { destruct H as [H|H];
      [destruct (server_mc_branch _ _ H HT) as (c & q1 & _ & Hm & _)
      |destruct (index_mc_branch _ _ H HT) as (c & q1 & _ & Hm & _)]; eauto. }
  destruct B as (choices & q1 & Hm).
  exact (multipleChoice_receiver _ _ _ _ Hm).
Qed.

Lemma multiple_choice_needs_list_witness :
  exists q, Server.processItem Sample.silent = Ok q
            /\ correctAnswer q = answer (JStr "N/A") (JStr "N/A").
Proof.
  eexists. split; [reflexivity|].
  destruct (multiple_choice_needs_list Sample.silent _ (or_introl eq_refl) eq_refl)
    as [[_ H]|H]; [exact H|discriminate H].
Defined.

(** [server.js] and [api/index.js]: with the response-conditions in a
    list, the correct answer of a multiple-choice question is built from
    the first condition that sets a variable, whichever answer it scores:
    its identifier is the trimmed equality target (empty when the target is
    absent) and its text that of the first option with this identifier,
    ["N/A"] when there is none; without such a condition both are ["N/A"]. *)
Theorem correct_answer_from_list :
  forall item q conds,
    Server.processItem item = Ok q \/ Index.processItem item = Ok q ->
    responseType q = MultipleChoice ->
    prop (prop item "resprocessing") "respcondition" = JArr conds ->
    match firstSetting conds with
    | None => correctAnswer q = answer (JStr "N/A") (JStr "N/A")
    | Some c =>
        exists target,
          orElse (opath (prop c "conditionvar") ["varequal"; "#"]) (JStr "")
          = JStr target
          /\ correctAnswer q
             = answer (JStr (trim target))
                      (choiceText (findOption (JStr (trim target)) (options q)))
    end.
Proof.
  intros item q conds H HT Hrc.
  assert (B : exists choices q1,
             options q1 = [] /\ multipleChoice item choices q1 = Ok q).
  { destruct H as [H|H];
      [destruct (server_mc_branch _ _ H HT) as (c & q1 & Ho & Hm & _)
      |destruct (index_mc_branch _ _ H HT) as (c & q1 & Ho & Hm & _)]; eauto. }
  destruct B as (choices & q1 & Ho & Hm).
  exact (proj2 (multipleChoice_from_list _ _ _ _ _ Hrc Ho Hm)).
Qed.

Lemma correct_answer_from_list_witness :
  exists q, Server.processItem Sample.unprofiled = Ok q
            /\ correctAnswer q = answer (JStr "B") (JStr "N/A").
Proof.
  eexists. split; [reflexivity|].
  destruct (correct_answer_from_list Sample.unprofiled _ _
              (or_introl eq_refl) eq_refl eq_refl) as (target & Ht & Ha).
  injection Ht as <-. exact Ha.
Defined.

(** The option that answers an identifier is the first one carrying it:
    every option before it has another identifier, and no option is found
    only when none carries it. *)
Theorem correct_choice_is_first :
  forall s opts,
    match findOption (JStr s) opts with
    | Some o =>
        exists before after,
          opts = (before ++ o :: after)%list
          /\ identifier o = JStr s
          /\ Forall (fun x => identifier x <> JStr s) before
    | None => Forall (fun x => identifier x <> JStr s) opts
    end.
Proof. exact findOption_first. Qed.

(** [server.js] and [api/index.js]: the answer of a fill-in-the-blank
    question is the equality target of the first entry of the
    response-condition list, as parsed - neither trimmed nor sanitized -
    and ["N/A"] when the list is empty, when the response-conditions are
    absent, or when they are a single mapping without a property [0]. *)
Theorem fill_in_blank_answer :
  forall item q,
    Server.processItem item = Ok q \/ Index.processItem item = Ok q ->
    responseType q = FillInBlank ->
    let respcondition := prop (prop item "resprocessing") "respcondition" in
    (forall conds, respcondition = JArr conds ->
       correctAnswer q
       = orElse (opath (nth 0 conds JUndefined) ["conditionvar"; "varequal"; "#"])
                (JStr "N/A"))
    /\ (forall ps, respcondition = JObj ps -> assoc "0" ps = JUndefined ->
          correctAnswer q = JStr "N/A")
    /\ (isNullish respcondition = true -> correctAnswer q = JStr "N/A").
Proof.
  intros item q H HT.
  assert (B : fillInBlankAnswer item = Ok (correctAnswer q)).
  { destruct H as [H|H];
      [apply server_other_branches in H|apply index_other_branches in H];
      destruct H as [Hm|[(_ & _ & Hf)|[(He & _)|(Hu & _)]]];
      try exact Hf; rewrite HT in *; discriminate. }
  unfold fillInBlankAnswer in B. inv_bind B as resprocessing Hrp.
  apply get_Ok in Hrp as [_ ->]. rewrite oget_prop in B.
  injection B as B. cbv zeta. rewrite <- B.
  split; [|split].
  - intros conds ->. destruct conds; reflexivity.
  - intros ps -> H0. unfold oat0, at0. cbn [isNullish]. rewrite H0. reflexivity.
  - intros Hn.
    destruct (prop (prop item "resprocessing") "respcondition");
      try discriminate Hn; reflexivity.
Qed.

Lemma fill_in_blank_answer_witness :
  exists q, Index.processItem (Sample.blank (JArr [Sample.condition " Paris" "1"])) = Ok q
            /\ correctAnswer q = JStr " Paris".
Proof.
  eexists. split; [reflexivity|].
  exact (proj1 (fill_in_blank_answer
                  (Sample.blank (JArr [Sample.condition " Paris" "1"])) _
                  (or_intror eq_refl) eq_refl) _ eq_refl).
Defined.

(** ** One assessment document *)

Section AssessmentDocument.

Variable processItem : JSValue -> result Question.
Variables noTitle singleTitle : string.

Let parsed := parsedQuiz processItem noTitle singleTitle.

Lemma prop_present (v : JSValue) (k : string) :
  isNullish (prop v k) = false -> exists ps, v = JObj ps.
Proof. destruct v; simpl; try discriminate. eauto. Qed.

Lemma prop_parent (v : JSValue) (k : string) :
  isNullish (prop v k) = false -> truthy v = true.
Proof. intros H. apply prop_present in H as [ps ->]. reflexivity. Qed.

Lemma parsed_null (doc : JSValue) :
  parsed doc = Ok None <->
  isNullish doc = false
  /\ (truthy (prop doc "questestinterop") = false
      \/ (truthy (prop (prop doc "questestinterop") "assessment") = false
          /\ truthy (prop (prop doc "questestinterop") "item") = false)).
Proof.
  unfold parsed, parsedQuiz. split.
  - intros H. inv_bind H as mainContainer Hc.
    apply get_Ok in Hc as [Hd ->]. split; [exact Hd|].
    destruct (truthy (prop doc "questestinterop")); [right|now left].
    simpl in H.
    destruct (truthy (prop (prop doc "questestinterop") "assessment")).
    + inv_bind H as processedItems Hp. discriminate H.
    + destruct (truthy (prop (prop doc "questestinterop") "item")).
      * inv_bind H as processedItems Hp. discriminate H.
      * auto.
  - intros [Hd [Hc|[Ha Hi]]]; rewrite (get_present _ _ Hd); cbn [bind].
    + rewrite Hc. reflexivity.
    + destruct (truthy (prop doc "questestinterop")); [|reflexivity].
      simpl. rewrite Ha, Hi. reflexivity.
Qed.

Lemma parsed_shape (doc : JSValue) (quiz : Quiz) :
  parsed doc = Ok (Some quiz) ->
  let container := prop doc "questestinterop" in
  let assessment := prop container "assessment" in
  let section := prop assessment "section" in
  (truthy assessment = true ->
     title quiz = orElse (prop assessment "title") (JStr noTitle)
     /\ (truthy section = false -> items quiz = [])
     /\ (forall l, prop section "item" = JArr l ->
           Forall2 (fun i q => processItem i = Ok q) l (items quiz))
     /\ (truthy section = true -> isArray (prop section "item") = false ->
           exists q, processItem (prop section "item") = Ok q
                     /\ items quiz = [q]))
  /\ (truthy assessment = false ->
        title quiz = JStr singleTitle
        /\ (forall l, prop container "item" = JArr l ->
              Forall2 (fun i q => processItem i = Ok q) l (items quiz))
        /\ (isArray (prop container "item") = false ->
              exists q, processItem (prop container "item") = Ok q
                        /\ items quiz = [q])).
Proof.
  unfold parsed, parsedQuiz. intros H. cbv zeta.
  inv_bind H as mainContainer Hc. apply get_Ok in Hc as [Hd ->].
  destruct (truthy (prop doc "questestinterop")); [|discriminate H].
  simpl in H.
  destruct (truthy (prop (prop doc "questestinterop") "assessment")).
  - split; [intros _|discriminate].
    inv_bind H as processedItems Hp. injection H as <-. simpl.
    split; [reflexivity|].
    destruct (truthy (prop (prop (prop doc "questestinterop") "assessment") "section"))
      eqn:Es.
    + split; [discriminate|]. split.
      * intros l Hl. rewrite Hl in Hp. simpl in Hp.
        exact (mapM_Forall2 _ _ _ Hp).
      * intros _ Hn. rewrite Hn in Hp.
        apply mapM_Forall2 in Hp. inversion Hp as [|? q ? qs Hq Hr]; subst.
        inversion Hr; subst. eauto.
    + simpl in Hp. injection Hp as <-.
      split; [reflexivity|]. split; [|discriminate].
      intros l Hl. exfalso.
      destruct (prop (prop (prop doc "questestinterop") "assessment") "section");
        try discriminate Hl. discriminate Es.
  - split; [discriminate|intros _].
    destruct (truthy (prop (prop doc "questestinterop") "item")); [|discriminate H].
    inv_bind H as processedItems Hp. injection H as <-. simpl.
    split; [reflexivity|]. split.
    + intros l Hl. rewrite Hl in Hp. simpl in Hp.
      exact (mapM_Forall2 _ _ _ Hp).
    + intros Hn. rewrite Hn in Hp.
      apply mapM_Forall2 in Hp. inversion Hp as [|? q ? qs Hq Hr]; subst.
      inversion Hr; subst. eauto.
Qed.

End AssessmentDocument.

(** In the three variants an assessment document yields no quiz ([null])
    exactly when it is a parsed tree whose [questestinterop] root is
    missing or empty, or holds neither an assessment nor an item; every
    other document yields a quiz or fails. *)
Theorem document_without_quiz :
  forall processItem noTitle singleTitle doc,
    parsedQuiz processItem noTitle singleTitle doc = Ok None <->
    isNullish doc = false
    /\ (truthy (prop doc "questestinterop") = false
        \/ (truthy (prop (prop doc "questestinterop") "assessment") = false
            /\ truthy (prop (prop doc "questestinterop") "item") = false)).
Proof. exact parsed_null. Qed.

(** In the three variants a quiz takes its title and its items from the
    assessment when the root has one - the title attribute or the
    variant's placeholder, no item without a section, otherwise one
    question per item of the section in document order - and only without
    an assessment from the items directly under the root, under the fixed
    single-item title. *)
Theorem quiz_shape :
  forall processItem noTitle singleTitle doc quiz,
    parsedQuiz processItem noTitle singleTitle doc = Ok (Some quiz) ->
    let container := prop doc "questestinterop" in
    let assessment := prop container "assessment" in
    let section := prop assessment "section" in
    (truthy assessment = true ->
       title quiz = orElse (prop assessment "title") (JStr noTitle)
       /\ (truthy section = false -> items quiz = [])
       /\ (forall l, prop section "item" = JArr l ->
             Forall2 (fun i q => processItem i = Ok q) l (items quiz))
       /\ (truthy section = true -> isArray (prop section "item") = false ->
             exists q, processItem (prop section "item") = Ok q
                       /\ items quiz = [q]))
    /\ (truthy assessment = false ->
          title quiz = JStr singleTitle
          /\ (forall l, prop container "item" = JArr l ->
                Forall2 (fun i q => processItem i = Ok q) l (items quiz))
          /\ (isArray (prop container "item") = false ->
                exists q, processItem (prop container "item") = Ok q
                          /\ items quiz = [q])).
Proof. exact parsed_shape. Qed.

Lemma quiz_shape_witness :
  exists quiz q,
    parsedQuiz Server.processItem "N/A (Title not found)"
               "Single Item Quiz (No Assessment Tag)" (Sample.quiz Sample.bare)
    = Ok (Some quiz)
    /\ title quiz = JStr "Geography"
    /\ Server.processItem Sample.bare = Ok q /\ items quiz = [q].
Proof.
  eexists.
  destruct (quiz_shape Server.processItem "N/A (Title not found)"
              "Single Item Quiz (No Assessment Tag)" (Sample.quiz Sample.bare) _
              eq_refl) as [H _].
  destruct (H eq_refl) as (Ht & _ & _ & Hq).
  destruct (Hq eq_refl eq_refl) as (q & Hp & Hi).
  exists q. split; [reflexivity|]. split; [exact Ht|]. split; assumption.
Defined.

(** In the three variants an assessment whose section holds no item makes
    the whole document fail: the absent item is wrapped in a list and its
    identifier is read. *)
Theorem empty_section_fails :
  forall noTitle singleTitle doc,
    let assessment := prop (prop doc "questestinterop") "assessment" in
    truthy (prop assessment "section") = true ->
    isNullish (prop (prop assessment "section") "item") = true ->
    parsedQuiz Server.processItem noTitle singleTitle doc = Throw TypeError
    /\ parsedQuiz Index.processItem noTitle singleTitle doc = Throw TypeError
    /\ parsedQuiz Upload.processItem noTitle singleTitle doc = Throw TypeError.
Proof.
  intros noTitle singleTitle doc. cbv zeta. intros Hs Hi.
  pose proof (prop_parent _ _ (truthy_present _ Hs)) as Ha.
  pose proof (prop_parent _ _ (truthy_present _ Ha)) as Hc.
  pose proof (truthy_present _ (prop_parent _ _ (truthy_present _ Hc))) as Hd.
  unfold parsedQuiz. rewrite (get_present _ _ Hd). cbn [bind].
  rewrite Hc. cbn [negb]. rewrite Ha, Hs.
  destruct (prop (prop (prop (prop doc "questestinterop") "assessment") "section")
                 "item");
    try discriminate Hi; repeat split; reflexivity.
Qed.

Lemma empty_section_fails_witness :
  parsedQuiz Server.processItem "N/A (Title not found)"
             "Single Item Quiz (No Assessment Tag)" Sample.hollow
  = Throw TypeError.
Proof.
  exact (proj1 (empty_section_fails "N/A (Title not found)"
                  "Single Item Quiz (No Assessment Tag)" Sample.hollow
                  eq_refl eq_refl)).
Defined.

(** In the three variants one item that cannot be processed fails the
    whole document: no quiz is returned for the items that could. *)
Theorem bad_item_fails_quiz :
  forall processItem noTitle singleTitle doc l item e,
    prop (prop (prop (prop doc "questestinterop") "assessment") "section") "item"
    = JArr l ->
    In item l -> processItem item = Throw e ->
    exists e', parsedQuiz processItem noTitle singleTitle doc = Throw e'.
Proof.
  intros processItem noTitle singleTitle doc l item e Hl Hin He.
  assert (Hi : isNullish
                 (prop (prop (prop (prop doc "questestinterop") "assessment")
                             "section") "item") = false)
    by (rewrite Hl; reflexivity).
  pose proof (prop_parent _ _ Hi) as Hs.
  pose proof (prop_parent _ _ (truthy_present _ Hs)) as Ha.
  pose proof (prop_parent _ _ (truthy_present _ Ha)) as Hc.
  pose proof (truthy_present _ (prop_parent _ _ (truthy_present _ Hc))) as Hd.
  unfold parsedQuiz. rewrite (get_present _ _ Hd). cbn [bind].
  rewrite Hc. cbn [negb]. rewrite Ha, Hs, Hl. cbn [isArray elemsOf].
  destruct (mapM_throws processItem l item e Hin He) as [e' ->].
  simpl. eauto.
Qed.

Lemma bad_item_fails_quiz_witness :
  exists e,
    parsedQuiz Index.processItem "N/A (Title not found)"
               "Single Item Quiz (No Assessment Tag)"
               (Sample.quiz (JArr [Sample.bare;
                                   Sample.capital (Sample.condition "A" "1")]))
    = Throw e.
Proof.
  apply (bad_item_fails_quiz Index.processItem _ _
           (Sample.quiz (JArr [Sample.bare;
                               Sample.capital (Sample.condition "A" "1")]))
           [Sample.bare; Sample.capital (Sample.condition "A" "1")]
           (Sample.capital (Sample.condition "A" "1")) TypeError).
  - reflexivity.
  - right. left. reflexivity.
  - reflexivity.
Defined.

(** ** The request handlers *)

(** [server.js] and [api/index.js]: what the handler leaves of a request's
    scratch resources.  When the [finally] block is reached - [mkdtemp]
    failed or the unzip promise settled, whatever the extraction did - the
    staged upload is off the disk unless [unlink] rejects, and the scratch
    directory and everything below it are off the disk unless [rm] rejects;
    a rejected deletion is logged and leaves its path, and when the unzip
    promise never settles nothing is removed. *)
Theorem handlers_release_scratch :
  forall env disk p,
    upload env = Some p ->
    released env p (snd (Server.handler env disk))
    /\ released env p (snd (Index.handler env disk)).
Proof.
  intros env disk p Hu. split;
    [exact (withCleanup_released Server.extract env disk p Hu)
    |exact (withCleanup_released Index.extract env disk p Hu)].
Qed.

Lemma handlers_release_scratch_witness :
  let env := Sample.package (Sample.manifest (Sample.resource assessmentType "quiz1.xml")) in
  ~ In "/tmp/upload_1" (snd (Server.handler env ["/tmp/other"]))
  /\ ~ In "/tmp/imscc-a1" (snd (Server.handler env ["/tmp/other"]))
  /\ ~ In (join "/tmp/imscc-a1" "quiz1.xml") (snd (Index.handler env ["/tmp/other"]))
  /\ In "/tmp/imscc-a1" (snd (Server.handler (Sample.stuck env) ["/tmp/other"]))
  /\ In "/tmp/upload_1" (snd (Server.handler (Sample.undeletable env) ["/tmp/other"])).
Proof.
  intros env.
  destruct (handlers_release_scratch env ["/tmp/other"] _ eq_refl)
    as [(Hp & Hd & _) (_ & Hd' & _)].
  split; [exact (Hp eq_refl eq_refl)|]. split; [|split; [|split]].
  - exact (proj1 (Hd eq_refl eq_refl _ eq_refl)).
  - exact (proj2 (Hd' eq_refl eq_refl _ eq_refl) "quiz1.xml").
  - destruct (handlers_release_scratch (Sample.stuck env) ["/tmp/other"] _ eq_refl)
      as [(_ & _ & _ & _ & Hs) _].
    exact (proj2 (Hs eq_refl) _ eq_refl).
  - destruct (handlers_release_scratch (Sample.undeletable env) ["/tmp/other"] _ eq_refl)
      as [(_ & _ & Hu & _) _].
    exact (Hu eq_refl eq_refl).
Defined.

(** [server.js] and [api/index.js]: a path that is neither the request's
    staged upload nor its scratch directory nor below the latter is on the
    disk after the handler exactly when it was there before - whether the
    deletions reject or the unzip promise never settles. *)
Theorem handlers_touch_only_their_scratch :
  forall env disk x,
    owned env x = false ->
    (In x (snd (Server.handler env disk)) <-> In x disk)
    /\ (In x (snd (Index.handler env disk)) <-> In x disk).
Proof.
  intros env disk x Ho. split; apply withCleanup_frame; exact Ho.
Qed.

Lemma handlers_touch_only_their_scratch_witness :
  let env := Sample.undeletable (Sample.package JNull) in
  In "/tmp/other" (snd (Server.handler env ["/tmp/other"]))
  /\ ~ In "/tmp/else" (snd (Index.handler env ["/tmp/other"])).
Proof.
  intros env. split.
  - apply (proj1 (handlers_touch_only_their_scratch env ["/tmp/other"] "/tmp/other"
                    eq_refl)).
    now left.
  - intros H.
    apply (proj2 (handlers_touch_only_their_scratch env ["/tmp/other"] "/tmp/else"
                    eq_refl)) in H.
    destruct H as [H|[]]. discriminate H.
Defined.

(** [api/upload.js]: the handler removes nothing; after a POST with a file
    the staged upload is on the disk, and so are the scratch directory and
    every extracted entry once [mkdtemp] succeeded - whatever the outcome of
    the request. *)
Theorem upload_handler_keeps_everything :
  forall env disk,
    let after := snd (Upload.handler env disk) in
    (forall x, In x disk -> In x after)
    /\ (method env = "POST" ->
        forall p, upload env = Some p ->
          In p after
          /\ forall dir, mkdtemp env = Some dir ->
               In dir after
               /\ forall name, In name (unzipped env) -> In (join dir name) after).
Proof.
  intros env disk. cbv zeta. rewrite upload_handler_disk.
  destruct (String.eqb (method env) "POST") eqn:Em; simpl.
  - destruct (upload env) as [p|].
    + destruct (mkdtemp env) as [dir|].
      * split.
        -- intros x Hx. apply in_app_iff. right. simpl. auto.
        -- intros _ p' E. injection E as <-. split.
           ++ apply in_app_iff. right. simpl. auto.
           ++ intros dir' E. injection E as <-. split.
              ** apply in_app_iff. right. simpl. auto.
              ** intros name Hn. apply in_app_iff. left.
                 apply in_map. exact Hn.
      * split; [intros x Hx; now right|].
        intros _ p' E. injection E as <-. split; [now left|].
        intros dir E. discriminate E.
    + split; [auto|]. intros _ p E. discriminate E.
  - split; [auto|]. intros E. apply String.eqb_neq in Em. now elim Em.
Qed.

Lemma upload_handler_keeps_everything_witness :
  let env := Sample.package JNull in
  In "/tmp/other" (snd (Upload.handler env ["/tmp/other"]))
  /\ In "/tmp/upload_1" (snd (Upload.handler env ["/tmp/other"]))
  /\ In (join "/tmp/imscc-a1" "quiz1.xml") (snd (Upload.handler env ["/tmp/other"])).
Proof.
  intros env.
  destruct (upload_handler_keeps_everything env ["/tmp/other"]) as [Hk Hs].
  split; [apply Hk; now left|].
  destruct (Hs eq_refl _ eq_refl) as [Hp Hd]. split; [exact Hp|].
  apply (proj2 (Hd _ eq_refl)). right. now left.
Defined.

Section Extraction.

Lemma server_extract_Ok (env : Env) (manifest : JSValue) (r : Response) :
  Server.extract env manifest = Ok r ->
  exists subject files results,
    r = R200 subject (pushed results)
    /\ subjectName manifest = Ok subject
    /\ Server.quizFiles manifest = Ok files
    /\ Forall2 (fun resource o => Server.quizOf env resource = Ok o) files results.
Proof.
  unfold Server.extract. intros H.
  inv_bind H as subject Hs. inv_bind H as files Hf. inv_bind H as all Ha.
  injection H as <-. apply collect_pushed in Ha as (results & HF & ->).
  exists subject, files, results. auto.
Qed.

Lemma index_extract_Ok (env : Env) (manifest : JSValue) (r : Response) :
  Index.extract env manifest = Ok r ->
  exists subject files results,
    r = R200 subject (pushed results)
    /\ subjectName manifest = Ok subject
    /\ Index.quizFiles manifest = Ok files
    /\ Forall2 (fun resource o => Index.quizOf env resource = Ok o) files results.
Proof.
  unfold Index.extract. intros H.
  inv_bind H as subject Hs. inv_bind H as files Hf. inv_bind H as all Ha.
  injection H as <-. apply collect_pushed in Ha as (results & HF & ->).
  exists subject, files, results. auto.
Qed.

Lemma upload_extract_Ok (env : Env) (manifest : JSValue) (r : Response) :
  Upload.extract env manifest = Ok r ->
  exists subject files results,
    r = R200 subject (pushed results)
    /\ subjectName manifest = Ok subject
    /\ Upload.quizFiles manifest = Ok files
    /\ Forall2 (fun resource o => Upload.quizOf env resource = Ok o) files results.
Proof.
  unfold Upload.extract. intros H.
  inv_bind H as subject Hs. inv_bind H as files Hf. inv_bind H as all Ha.
  injection H as <-. apply collect_pushed in Ha as (results & HF & ->).
  exists subject, files, results. auto.
Qed.

Lemma extract_throws (quizFiles : JSValue -> result (list JSValue))
    (step : JSValue -> result (option Quiz)) (manifest : JSValue)
    (files : list JSValue) (resource : JSValue) (e : Exn) :
  quizFiles manifest = Ok files -> In resource files -> step resource = Throw e ->
  exists e',
    (subject <- subjectName manifest ;;
     files <- quizFiles manifest ;;
     allQuizData <- collect step files ;;
     Ok (R200 subject allQuizData)) = Throw e'.
Proof.
  intros Hf Hin Hs.
  destruct (subjectName manifest); simpl; [|eauto].
  rewrite Hf. simpl.
  destruct (collect_throws _ _ _ _ Hin Hs) as [e' ->]. simpl. eauto.
Qed.

End Extraction.

(** In the three variants a successful extraction answers the subject and,
    in the order of the selected resources, the quiz of every resource
    that yielded one; a resource that yielded [null] leaves no trace. *)
Theorem quizzes_in_manifest_order :
  forall env manifest r,
    (Server.extract env manifest = Ok r ->
     exists subject files results,
       r = R200 subject (pushed results)
       /\ subjectName manifest = Ok subject
       /\ Server.quizFiles manifest = Ok files
       /\ Forall2 (fun x o => Server.quizOf env x = Ok o) files results)
    /\ (Index.extract env manifest = Ok r ->
        exists subject files results,
          r = R200 subject (pushed results)
          /\ subjectName manifest = Ok subject
          /\ Index.quizFiles manifest = Ok files
          /\ Forall2 (fun x o => Index.quizOf env x = Ok o) files results)
    /\ (Upload.extract env manifest = Ok r ->
        exists subject files results,
          r = R200 subject (pushed results)
          /\ subjectName manifest = Ok subject
          /\ Upload.quizFiles manifest = Ok files
          /\ Forall2 (fun x o => Upload.quizOf env x = Ok o) files results).
Proof.
  intros env manifest r. split; [|split].
  - apply server_extract_Ok.
  - apply index_extract_Ok.
  - apply upload_extract_Ok.
Qed.

Lemma quizzes_in_manifest_order_witness :
  let env := Sample.package (Sample.manifest JUndefined) in
  exists subject results,
    Index.extract env (Sample.manifest (JArr [Sample.resource assessmentType "quiz1.xml";
                                              Sample.resource assessmentType ""]))
    = Ok (R200 subject (pushed results))
    /\ length results = 2.
Proof.
  intros env.
  destruct (proj1 (proj2 (quizzes_in_manifest_order env
              (Sample.manifest (JArr [Sample.resource assessmentType "quiz1.xml";
                                      Sample.resource assessmentType ""])) _))
              eq_refl)
    as (subject & files & results & E & _ & Hf & HF).
  exists subject, results. split.
  - rewrite <- E. reflexivity.
  - injection Hf as <-. apply Forall2_length in HF. now rewrite <- HF.
Defined.

Section FailingRequests.

Lemma upload_status (env : Env) (disk : Disk) (manifest : JSValue) (e : Exn) :
  method env = "POST" ->
  upload env <> None ->
  manifestDoc env = Some manifest ->
  Upload.extract env manifest = Throw e ->
  fst (Upload.handler env disk) = R500.
Proof.
  unfold Upload.handler, stage, tryBlock, unzipFile. intros Hp Hu Hm He.
  rewrite Hp. simpl.
  destruct (upload env) as [p|]; [|now elim Hu].
  destruct (mkdtemp env); [|reflexivity].
  rewrite Hm. unfold manifestDoc in Hm.
  destruct (unzip env); try discriminate Hm.
  rewrite He. reflexivity.
Qed.

End FailingRequests.

(** In the three variants one selected resource whose file cannot be
    read, parsed or processed fails the whole request with status 500: the
    quizzes of the other resources are not returned. *)
Theorem one_bad_assessment_fails_request :
  forall env disk manifest,
    upload env <> None ->
    manifestDoc env = Some manifest ->
    (forall files resource e,
       Server.quizFiles manifest = Ok files -> In resource files ->
       Server.quizOf env resource = Throw e ->
       fst (Server.handler env disk) = R500)
    /\ (forall files resource e,
          Index.quizFiles manifest = Ok files -> In resource files ->
          Index.quizOf env resource = Throw e ->
          fst (Index.handler env disk) = R500)
    /\ (forall files resource e,
          method env = "POST" ->
          Upload.quizFiles manifest = Ok files -> In resource files ->
          Upload.quizOf env resource = Throw e ->
          fst (Upload.handler env disk) = R500).
Proof.
  intros env disk manifest Hu Hm. split; [|split].
  - intros files resource e Hf Hin He.
    destruct (extract_throws _ _ _ _ _ _ Hf Hin He) as [e' He'].
    exact (withCleanup_status Server.extract env disk manifest e' Hu Hm He').
  - intros files resource e Hf Hin He.
    destruct (extract_throws _ _ _ _ _ _ Hf Hin He) as [e' He'].
    exact (withCleanup_status Index.extract env disk manifest e' Hu Hm He').
  - intros files resource e Hp Hf Hin He.
    destruct (extract_throws _ _ _ _ _ _ Hf Hin He) as [e' He'].
    exact (upload_status env disk manifest e' Hp Hu Hm He').
Qed.

Lemma one_bad_assessment_fails_request_witness :
  fst (Index.handler
         (Sample.package
            (Sample.manifest (JArr [Sample.resource assessmentType "quiz1.xml";
                                    Sample.resource assessmentType "missing.xml"])))
         []) = R500.
Proof.
  pose (good := Sample.resource assessmentType "quiz1.xml").
  pose (bad := Sample.resource assessmentType "missing.xml").
  pose (m := Sample.manifest (JArr [good; bad])).
  assert (Hu : upload (Sample.package m) <> None) by discriminate.
  apply (proj1 (proj2 (one_bad_assessment_fails_request
                         (Sample.package m) [] m Hu eq_refl))
               [good; bad] bad IOError).
  - reflexivity.
  - right. now left.
  - reflexivity.
Defined.

(** [server.js] and [api/upload.js] on one manifest tree: whenever
    [server.js] selects resources - they are a list - [api/upload.js] selects
    the same ones; for a single resource or none [server.js] throws a
    TypeError on [filter] while [api/upload.js] selects the resource exactly
    when its type is the assessment type. *)
Theorem upload_selects_like_server :
  forall manifest,
    (forall files, Server.quizFiles manifest = Ok files ->
                   Upload.quizFiles manifest = Ok files)
    /\ (forall node, resourceNode manifest = Ok node -> isArray node = false ->
          Server.quizFiles manifest = Throw TypeError
          /\ Upload.quizFiles manifest
             = Ok (if seq_str (prop node "type") assessmentType
                   then [node] else [])).
Proof.
  intros manifest. unfold Upload.quizFiles, Server.quizFiles.
  destruct (resourceNode manifest) as [node|e]; simpl.
  - split.
    + destruct node; simpl; try discriminate. auto.
    + intros node' E Hn. injection E as <-.
      destruct node; try discriminate Hn; simpl; split; reflexivity.
  - split; [discriminate|]. intros node E. discriminate E.
Qed.

Lemma upload_selects_like_server_witness :
  Upload.quizFiles
    (Sample.manifest (JArr [Sample.resource "webcontent" "page.html";
                            Sample.resource assessmentType "quiz1.xml"]))
  = Ok [Sample.resource assessmentType "quiz1.xml"]
  /\ Server.quizFiles (Sample.manifest (Sample.resource assessmentType "quiz1.xml"))
     = Throw TypeError
  /\ Upload.quizFiles (Sample.manifest (Sample.resource assessmentType "quiz1.xml"))
     = Ok [Sample.resource assessmentType "quiz1.xml"].
Proof.
  split.
  - apply (proj1 (upload_selects_like_server
                    (Sample.manifest (JArr [Sample.resource "webcontent" "page.html";
                                            Sample.resource assessmentType "quiz1.xml"])))).
    reflexivity.
  - exact (proj2 (upload_selects_like_server
                    (Sample.manifest (Sample.resource assessmentType "quiz1.xml")))
                 _ eq_refl eq_refl).
Defined.

(** In the three variants a manifest tree without a [manifest] root or
    without a [resources] element makes the extraction fail with a
    TypeError, although the subject alone would have defaulted to
    ["N/A"]. *)
Theorem missing_resources_fail :
  forall env manifest,
    isNullish manifest = false ->
    isNullish (prop (prop manifest "manifest") "resources") = true ->
    Server.extract env manifest = Throw TypeError
    /\ Index.extract env manifest = Throw TypeError
    /\ Upload.extract env manifest = Throw TypeError.
Proof.
  intros env manifest Hm Hr.
  assert (Hn : resourceNode manifest = Throw TypeError).
  { unfold resourceNode. rewrite (get_present _ _ Hm). cbn [bind].
    unfold get at 1.
    destruct (isNullish (prop manifest "manifest")); [reflexivity|].
    cbn [bind]. unfold get. rewrite Hr. reflexivity. }
  unfold Server.extract, Index.extract, Upload.extract, Server.quizFiles,
    Index.quizFiles, Upload.quizFiles, subjectName.
  rewrite (get_present _ _ Hm), Hn. repeat split.
Qed.

Lemma missing_resources_fail_witness :
  Server.extract (Sample.package JNull) (JObj [("cartridge", JStr "")])
  = Throw TypeError
  /\ subjectName (JObj [("cartridge", JStr "")]) = Ok (JStr "N/A").
Proof.
  split; [|reflexivity].
  exact (proj1 (missing_resources_fail (Sample.package JNull)
                  (JObj [("cartridge", JStr "")]) eq_refl eq_refl)).
Defined.

Lemma document_without_quiz_witness :
  parsedQuiz Upload.processItem "N/A" "Single Item Quiz"
             (JObj [("questestinterop", JObj [("objectbank", JStr "")])])
  = Ok None.
Proof.
  apply (proj2 (document_without_quiz Upload.processItem "N/A" "Single Item Quiz"
                  (JObj [("questestinterop", JObj [("objectbank", JStr "")])]))).
  split; [reflexivity|]. right. split; reflexivity.
Defined.

Section OnlyRemoves.

Lemma replaceTags_keeps_absent (a : ascii) (s : string) :
  occurs a s = false ->
  occurs a (replaceTags s) = false /\ occurs a (inTag s) = false.
Proof.
  induction s as [|c r IH]; simpl; [auto|].
  intros H. apply orb_false_iff in H as [Hc Hr].
  destruct (IH Hr) as [IH1 IH2]. split.
  - destruct (Ascii.eqb c lt_char); [exact IH2|]. simpl. now rewrite Hc.
  - destruct (Ascii.eqb c gt_char); assumption.
Qed.

Lemma replaceTags_length (s : string) :
  String.length (replaceTags s) <= String.length s
  /\ String.length (inTag s) <= String.length s.
Proof.
  induction s as [|c r [IH1 IH2]]; simpl; [auto|]. split.
  - destruct (Ascii.eqb c lt_char); simpl; lia.
  - destruct (Ascii.eqb c gt_char); lia.
Qed.

Lemma trimStart_length (s : string) :
  String.length (trimStart s) <= String.length s.
Proof.
  induction s as [|c r IH]; simpl; [auto|].
  destruct (is_ws c); simpl; lia.
Qed.

Lemma trimEnd_length (s : string) :
  String.length (trimEnd s) <= String.length s.
Proof.
  induction s as [|c r IH]; simpl; [auto|].
  destruct (trimEnd r); [destruct (is_ws c)|]; simpl in *; lia.
Qed.

End OnlyRemoves.

(** The sanitizer only removes: every code unit of its result occurs in
    the input, and the result is never longer than the input. *)
Theorem sanitizer_only_removes :
  forall s t,
    stripHtmlTags (JStr s) = Ok t ->
    String.length t <= String.length s
    /\ forall a, occurs a t = true -> occurs a s = true.
Proof.
  intros s t H. rewrite stripHtmlTags_string in H. injection H as <-. split.
  - unfold trim.
    pose proof (trimEnd_length (trimStart (replaceTags s))).
    pose proof (trimStart_length (replaceTags s)).
    pose proof (proj1 (replaceTags_length s)). lia.
  - intros a Ha. destruct (occurs a s) eqn:E; [reflexivity|].
    rewrite (occurs_trim _ _ (proj1 (replaceTags_keeps_absent _ _ E))) in Ha.
    discriminate Ha.
Qed.

Lemma sanitizer_only_removes_witness :
  String.length "Hello World" <= String.length " <p>Hello <b>World</b></p> ".
Proof.
  exact (proj1 (sanitizer_only_removes " <p>Hello <b>World</b></p> " "Hello World"
                  eq_refl)).
Defined.

(** [api/upload.js]: a produced question is multiple choice exactly when
    the item has a choice rendering; any other item keeps every initial
    placeholder - response type, correct answer and score ["N/A"], no
    options. *)
Theorem upload_outcomes :
  forall item q,
    Upload.processItem item = Ok q ->
    (hasChoiceRendering item = true /\ responseType q = MultipleChoice)
    \/ (hasChoiceRendering item = false
        /\ responseType q = "N/A" /\ options q = []
        /\ correctAnswer q = JStr "N/A" /\ score q = JStr "N/A").
Proof.
  unfold Upload.processItem, hasChoiceRendering. intros item q H.
  inv_bind H as question Hq.
  pose proof (newQuestion_Ok _ _ _ Hq) as (_ & Hty & Ho & Ha & Hs).
  inv_bind H as presentation Hp. apply get_Ok in Hp as [_ ->].
  destruct (truthy (opath (prop item "presentation") ["response_lid"; "render_choice"])).
  - left. split; [reflexivity|].
    inv_bind H as opts Hopts. inv_bind H as resprocessing Hrp.
    inv_bind H as correctResponse Hcr.
    destruct (truthy correctResponse); injection H as <-; reflexivity.
  - right. injection H as <-. auto.
Qed.

Lemma upload_outcomes_witness :
  exists q, Upload.processItem (Sample.essay Sample.freeText) = Ok q
            /\ responseType q = "N/A" /\ score q = JStr "N/A".
Proof.
  eexists. split; [reflexivity|].
  destruct (upload_outcomes (Sample.essay Sample.freeText) _ eq_refl)
    as [[H _]|(_ & Ht & _ & _ & Hs)]; [discriminate H|].
  split; assumption.
Defined.

(** A question of unknown type has no options and keeps the initial
    correct answer, which is the text ["N/A"] in [server.js] and the
    mapping [{id:"N/A", text:"N/A"}] in [api/index.js]. *)
Theorem unknown_placeholders :
  forall item q,
    responseType q = Unknown ->
    (Server.processItem item = Ok q ->
     options q = [] /\ correctAnswer q = JStr "N/A")
    /\ (Index.processItem item = Ok q ->
        options q = [] /\ correctAnswer q = answer (JStr "N/A") (JStr "N/A")).
Proof.
  intros item q HT. split; intros H.
  - apply server_other_branches in H
      as [Hm|[(Hf & _)|[(He & _)|(_ & Ho & Ha)]]];
      try (rewrite HT in *; discriminate). auto.
  - apply index_other_branches in H
      as [Hm|[(Hf & _)|[(He & _)|(_ & Ho & Ha)]]];
      try (rewrite HT in *; discriminate). auto.
Qed.

Lemma unknown_placeholders_witness :
  (exists q, Server.processItem Sample.bare = Ok q
             /\ correctAnswer q = JStr "N/A")
  /\ (exists q, Index.processItem Sample.bare = Ok q
                /\ correctAnswer q = answer (JStr "N/A") (JStr "N/A")).
Proof.
  split; eexists; (split; [reflexivity|]).
  - match goal with
    | |- correctAnswer ?q = _ =>
        exact (proj2 (proj1 (unknown_placeholders Sample.bare q eq_refl) eq_refl))
    end.
  - match goal with
    | |- correctAnswer ?q = _ =>
        exact (proj2 (proj2 (unknown_placeholders Sample.bare q eq_refl) eq_refl))
    end.
Defined.
